(** * RobotRemoteServer: a remote-library endpoint for Robot Framework

    A shallow embedding of [src/robotremoteserver.py] (Python 2) and the
    properties of its protocol adapter: keyword discovery, documentation
    lookup, keyword invocation with captured console output, translation of
    exceptions into result records, and binary-safe marshalling of values.

    Layout: the slice of the Python 2 runtime the server leans on
    ([Module Py]), the server's methods in source order
    ([Section RobotRemoteServer]), the observations the properties are
    stated with, a sample backing object, and the properties.

    Scope of the model.  Text keeps the two types of Python 2, [str] and
    [unicode], because the code tells them apart.  A keyword of the backing
    object is known by what a call does with given arguments: the pieces it
    writes to [sys.stdout], then the value it returns or the exception it
    raises; it does not touch the server or [sys.stdout] otherwise.  An
    exception that leaves a method of the server is a [failure]; the state
    reached when it is raised is kept.  The transport, the signal handlers,
    the start-up announcement and [get_keyword_arguments] are not
    modelled. *)

From Stdlib Require Import ZArith NArith List String Ascii Bool Lia DecimalString.
From stdpp Require Import base option list gmap strings fin_maps sorting.

Set Warnings "-register-all".

Local Open Scope string_scope.
Local Open Scope list_scope.

(** ** The Python 2 runtime, as far as the server uses it *)

Module Py.

(** A [unicode] object is a sequence of code points; a [str] object is a
    sequence of 8-bit characters, for which Rocq's [string] is used. *)
Definition utext := list N.

(** [basestring]: either of the two text types. *)
Inductive text :=
| Str (s : string)
| Unicode (u : utext).

Definition ord (c : ascii) : N := N_of_ascii c.
Definition chr (n : N) : ascii := ascii_of_N n.

Definition bytes (s : string) : list N := map ord (list_ascii_of_string s).

(** The text of an ASCII literal as a [unicode] object, [u'...']. *)
Definition u (s : string) : utext := bytes s.

(** What a regular expression scans: the characters of either text type. *)
Definition chars (t : text) : list N :=
  match t with
  | Str s => bytes s
  | Unicode cps => cps
  end.

(** [not t] for a text value. *)
Definition is_empty (t : text) : bool :=
  match chars t with [] => true | _ :: _ => false end.

Definition is_ascii (n : N) : bool := (n <? 128)%N.

(** [unicode(s)] / implicit coercion of a [str]: the default codec is
    ASCII and strict, a byte above 0x7F raises [UnicodeDecodeError]. *)
Definition decode_ascii (s : string) : option utext :=
  if forallb is_ascii (bytes s) then Some (bytes s) else None.

(** [unicode(s, errors='replace')]: every byte that is not ASCII becomes
    U+FFFD. *)
Definition REPLACEMENT_CHARACTER : N := 65533.

Definition decode_ascii_replace (s : string) : utext :=
  map (fun b => if is_ascii b then b else REPLACEMENT_CHARACTER) (bytes s).

(** [str(x)] on a [unicode]: strict ASCII encoding, [UnicodeEncodeError]
    on a code point above 0x7F. *)
Definition encode_ascii (cps : utext) : option string :=
  if forallb is_ascii cps
  then Some (string_of_list_ascii (map chr cps))
  else None.

(** [str(x)] for a text value. *)
Definition str_of_text (t : text) : option string :=
  match t with
  | Str s => Some s
  | Unicode cps => encode_ascii cps
  end.

(** ['%d' % n] and ['%s' % n] for an integer. *)
Definition decimal (n : Z) : string := NilZero.string_of_int (Z.to_int n).

(** [s.upper()] in the C locale. *)
Definition upper_char (c : ascii) : ascii :=
  let n := ord c in
  if ((97 <=? n) && (n <=? 122))%N then chr (n - 32) else c.

Fixpoint upper (s : string) : string :=
  match s with
  | EmptyString => EmptyString
  | String c rest => String (upper_char c) (upper rest)
  end.

(** [s.strip()]: whitespace is removed from both ends. *)
Definition isspace (c : ascii) : bool :=
  let n := ord c in
  ((n =? 32) || ((9 <=? n) && (n <=? 13)))%N.

Fixpoint lstrip_chars (l : list ascii) : list ascii :=
  match l with
  | c :: rest => if isspace c then lstrip_chars rest else l
  | [] => []
  end.

Definition strip (s : string) : string :=
  string_of_list_ascii
    (rev (lstrip_chars (rev (lstrip_chars (list_ascii_of_string s))))).

(** [''.join(parts)] for [str] parts. *)
Definition concat_str (parts : list string) : string :=
  fold_right String.append "" parts.

(** Values that cross the server: what keywords receive and return.
    A float is carried by its IEEE-754 bit pattern (the server never
    computes with it); [VObject] stands for any other object, which is
    neither iterable nor a mapping and whose [unicode()] is the given
    text; [VBinary] is an [xmlrpclib.Binary] wrapping a [str]. *)
Inductive pyval :=
| VNone
| VBool (b : bool)
| VInt (n : Z)
| VFloat (bits : Z)
| VText (t : text)
| VBinary (data : string)
| VList (items : list pyval)
| VTuple (items : list pyval)
| VDict (items : list (pyval * pyval))
| VObject (unicode : utext).

(** String literals of the source, ['...'] and [u'...']. *)
Definition s_ (s : string) : pyval := VText (Str s).
Definition u_ (cps : utext) : pyval := VText (Unicode cps).

(** Truth value of an object ([bool(x)], [x or y], [if x]). *)
Definition truthy (v : pyval) : bool :=
  match v with
  | VNone => false
  | VBool b => b
  | VInt n => negb (n =? 0)%Z
  | VFloat bits => negb (bits mod 2 ^ 63 =? 0)%Z
  | VText t => negb (is_empty t)
  | VBinary _ => true
  | VList items | VTuple items => match items with [] => false | _ => true end
  | VDict items => match items with [] => false | _ => true end
  | VObject _ => true
  end.

(** *** Exceptions

    [exc_type in (A, B)] compares classes by identity: a class is one of
    the built-in classes the server names, or some other class, known by
    its [__name__]. *)
Inductive exc_class :=
| SystemExit
| KeyboardInterrupt
| AssertionError
| RuntimeError
| Exception
| TypeError
| OtherClass (name : string).

#[global] Instance exc_class_eq_dec : EqDecision exc_class.
Proof. solve_decision. Defined.

Definition __name__ (c : exc_class) : string :=
  match c with
  | SystemExit => "SystemExit"
  | KeyboardInterrupt => "KeyboardInterrupt"
  | AssertionError => "AssertionError"
  | RuntimeError => "RuntimeError"
  | Exception => "Exception"
  | TypeError => "TypeError"
  | OtherClass name => name
  end.

(** An exception instance: its [args], and what [unicode(value)] gives,
    [None] when that conversion raises [UnicodeError]. *)
Record exc_instance := {
  exc_args : list pyval;
  exc_unicode : option utext
}.

(** [cls(message)] for a built-in class and a [str] message. *)
Definition new_exception (message : string) : exc_instance :=
  {| exc_args := [s_ message]; exc_unicode := decode_ascii message |}.

(** A traceback entry: file, line number, function and the source line
    as [linecache] has it (empty when the source is not available). *)
Record frame := {
  f_filename : string;
  f_lineno : Z;
  f_name : string;
  f_line : string
}.

(** [sys.exc_info()] *)
Record exc_info := {
  exc_type : exc_class;
  exc_value : exc_instance;
  exc_tb : list frame
}.

(** [traceback.extract_tb]: the source line is stripped, and absent when
    empty. *)
Definition extract_tb (tb : list frame)
  : list (string * Z * string * option string) :=
  map (fun f =>
         (f_filename f, f_lineno f, f_name f,
          match f_line f with
          | EmptyString => None
          | line => Some (strip line)
          end)) tb.

Definition LF : string := String "010"%char EmptyString.
Definition QUOTE : string := String "034"%char EmptyString.

(** [traceback.format_list] *)
Definition format_list (extracted_list : list (string * Z * string * option string))
  : list string :=
  map (fun '(filename, lineno, name, line) =>
         let item := "  File " +:+ QUOTE +:+ filename +:+ QUOTE +:+ ", line "
                     +:+ decimal lineno
                     +:+ ", in " +:+ name +:+ LF in
         match line with
         | Some (String c rest as line) => item +:+ "    " +:+ strip line +:+ LF
         | _ => item
         end) extracted_list.

(** *** [StringIO.StringIO]

    The buffer is the list of the pieces written so far. *)
Definition StringIO := list text.

(** [write(s)]: an empty piece is dropped. *)
Definition StringIO_write (s : text) (buflist : StringIO) : StringIO :=
  if is_empty s then buflist else buflist ++ [s].

Definition is_str (t : text) : bool :=
  match t with Str _ => true | Unicode _ => false end.

Definition raw (t : text) : string :=
  match t with Str s => s | Unicode _ => "" end.

(** Implicit coercion of a piece to [unicode]. *)
Definition coerce (t : text) : option utext :=
  match t with
  | Str s => decode_ascii s
  | Unicode cps => Some cps
  end.

(** [''.join(parts)]: a [str] when every part is one; otherwise the
    [str] parts are decoded as ASCII, which fails on a byte above 0x7F. *)
Definition join (parts : list text) : option text :=
  if forallb is_str parts
  then Some (Str (concat_str (map raw parts)))
  else cps ← mapM coerce parts; Some (Unicode (concat cps)).

(** [getvalue()] *)
Definition getvalue (buflist : StringIO) : option text :=
  match buflist with
  | [] => Some (Str "")
  | _ => join buflist
  end.

(** [' '.join(parts)] for [unicode] parts; the empty list gives ['']. *)
Fixpoint intercalate (sep : utext) (parts : list utext) : utext :=
  match parts with
  | [] => []
  | [p] => p
  | p :: rest => p ++ sep ++ intercalate sep rest
  end.

Definition join_with_space (parts : list utext) : text :=
  match parts with
  | [] => Str ""
  | _ => Unicode (intercalate (u " ") parts)
  end.

(** *** The backing object

    A routine ([inspect.isroutine]) is known by what [inspect.getdoc]
    returns for it and by what a call does: the pieces it writes to
    [sys.stdout], in order, and then the value it returns or the exception
    it raises (with the traceback entries of its own code). *)
Record routine := {
  getdoc : option text;
  call : list pyval -> gmap string pyval -> list text * (exc_info + pyval)
}.

Inductive attribute :=
| Routine (r : routine)
| Data (v : pyval).

Definition isroutine (a : option attribute) : bool :=
  match a with Some (Routine _) => true | _ => false end.

(** [attributes] holds what reading an attribute gives.  [unset] holds the
    names that [dir] lists although reading them raises [AttributeError]:
    a slot that has no value, a property whose getter raises it. *)
Record library := {
  attributes : gmap string attribute;
  unset : gset string;
  library_doc : option text;
  ismodule : bool
}.

(** [getattr(library, name, None)]: the default stands in for an
    attribute that cannot be read. *)
Definition getattr (lib : library) (name : string) : option attribute :=
  attributes lib !! name.

(** [dir(library)]: the attribute names, sorted. *)
Definition dir (lib : library) : list string :=
  merge_sort (fun a b => String.leb a b)
    (elements (dom (attributes lib) ∪ unset lib)).

End Py.

Import Py.

(** ** Failures

    What leaves a method of the server as an exception, one constructor
    per place that raises. *)
Inductive failure :=
| Reraised (exc : exc_info)
    (* the bare [raise] of [_get_error_details] *)
| RaisedByLibrary (exc : exc_info)
    (* the library's own [get_keyword_names] raising *)
| ValueError_cannot_represent (result : text)
    (* [ValueError("Cannot represent %r as binary." % result)] *)
| UnicodeDecodeError
    (* implicit ASCII decoding of a [str] with a byte above 0x7F *)
| TypeError_coercing_to_unicode (a : pyval)
    (* [unicode(a, errors='replace')] on something that is not a [str] *)
| TypeError_unhashable (key : pyval)
    (* [dict([...])] with a key that cannot be hashed *)
| TypeError_concatenate (names : pyval)
    (* [names + [...]] when [names] is not a list *)
| IndexError_string_index
    (* [attr[0]] on an empty name *)
| AttributeError_no_attribute (name : string)
    (* [getattr(self._library, attr)] on a name that cannot be read *)
| AttributeError_getvalue.
    (* [sys.stdout.getvalue()] while [sys.stdout] is the real console *)

(** [except TypeError] *)
Definition is_TypeError (f : failure) : bool :=
  match f with
  | TypeError_coercing_to_unicode _ | TypeError_unhashable _
  | TypeError_concatenate _ => true
  | _ => false
  end.

(** Pure code that may raise. *)
Definition attempt (A : Type) : Type := failure + A.

Definition and_then {A B} (r : attempt A) (k : A -> attempt B) : attempt B :=
  match r with
  | inl f => inl f
  | inr a => k a
  end.

Notation "'try!' x := e 'in' k" := (and_then e (fun x => k))
  (at level 10, x name, e at level 100, k at level 200).

(** [[f(x) for x in l]], stopping at the first failure. *)
Definition for_each {A B} (f : A -> attempt B) : list A -> attempt (list B) :=
  fix go (l : list A) : attempt (list B) :=
    match l with
    | [] => inr []
    | x :: rest =>
        try! y := f x in
        try! ys := go rest in
        inr (y :: ys)
    end.

(** Where [sys.stdout] points. *)
Inductive stream :=
| Console                       (* [sys.__stdout__] *)
| Capture (buflist : StringIO). (* a [StringIO] put in its place *)

(** The server object, together with the process-wide console routing
    that it changes: [sys_stdout] is [sys.stdout], and [console] is what
    has reached the real console. *)
Record server := {
  _library : library;
  _allow_stop : bool;
  _shutdown : bool;
  server_address : string * Z;
  sys_stdout : stream;
  console : list text
}.

Definition set_shutdown (b : bool) (self : server) : server :=
  {| _library := _library self; _allow_stop := _allow_stop self;
     _shutdown := b; server_address := server_address self;
     sys_stdout := sys_stdout self; console := console self |}.

Definition set_stdout (out : stream) (self : server) : server :=
  {| _library := _library self; _allow_stop := _allow_stop self;
     _shutdown := _shutdown self; server_address := server_address self;
     sys_stdout := out; console := console self |}.

Definition set_console (c : list text) (self : server) : server :=
  {| _library := _library self; _allow_stop := _allow_stop self;
     _shutdown := _shutdown self; server_address := server_address self;
     sys_stdout := sys_stdout self; console := c |}.

(** [sys.stdout.write(s)] *)
Definition write (s : text) (self : server) : server :=
  match sys_stdout self with
  | Console => set_console (console self ++ [s]) self
  | Capture buflist => set_stdout (Capture (StringIO_write s buflist)) self
  end.

Definition write_all (pieces : list text) (self : server) : server :=
  foldl (fun self s => write s self) self pieces.

(** Methods: the state is threaded, and a failure keeps the state
    reached when it was raised. *)
Definition M (A : Type) : Type := server -> attempt A * server.

Definition ret {A} (a : A) : M A := fun self => (inr a, self).

Definition raise {A} (f : failure) : M A := fun self => (inl f, self).

Definition lift {A} (r : attempt A) : M A := fun self => (r, self).

Definition bind {A B} (m : M A) (k : A -> M B) : M B :=
  fun self =>
    match m self with
    | (inr a, self') => k a self'
    | (inl f, self') => (inl f, self')
    end.

Notation "'do!' x := e 'in' k" := (bind e (fun x => k))
  (at level 10, x name, e at level 100, k at level 200).

(** ** The server *)

(** [BINARY = re.compile('[\x00-\x08\x0B\x0C\x0E-\x1F]')] *)
Definition BINARY (c : N) : bool :=
  ((c <=? 8) || (c =? 11) || (c =? 12) || ((14 <=? c) && (c <=? 31)))%N.

Definition BINARY_search (result : text) : bool := existsb BINARY (chars result).

Definition _generic_exceptions : list exc_class :=
  [AssertionError; RuntimeError; Exception].

Definition _fatal_exceptions : list exc_class :=
  [SystemExit; KeyboardInterrupt].

(** What [_get_keyword] resolves a name to: the server's own bound method
    or a routine of the library. *)
Inductive keyword :=
| OwnStop
| LibraryKeyword (r : routine).

(** The entry of [run_keyword]'s own frame, which every traceback caught
    there starts with. *)
Definition run_keyword_frame : frame :=
  {| f_filename := "robotremoteserver.py";
     f_lineno := 108;
     f_name := "run_keyword";
     f_line := "            return_value = self._get_keyword(name)(" +:+
               "*args, **kwargs)" |}.

Definition raised_here (cls : exc_class) (message : string) : exc_info :=
  {| exc_type := cls; exc_value := new_exception message;
     exc_tb := [run_keyword_frame] |}.

Definition through_run_keyword (exc : exc_info) : exc_info :=
  {| exc_type := exc_type exc; exc_value := exc_value exc;
     exc_tb := run_keyword_frame :: exc_tb exc |}.

Section RobotRemoteServer.

(** The interpreter's text for floats and containers ([repr]) is left to
    the runtime. *)
Variable repr_text : pyval -> utext.

(** [unicode(item)] *)
Definition unicode (item : pyval) : attempt utext :=
  match item with
  | VNone => inr (u "None")
  | VBool b => inr (u (if b then "True" else "False"))
  | VInt n => inr (u (decimal n))
  | VText (Unicode cps) => inr cps
  | VText (Str s) | VBinary s =>
      match decode_ascii s with
      | Some cps => inr cps
      | None => inl UnicodeDecodeError
      end
  | VObject cps => inr cps
  | VFloat _ | VList _ | VTuple _ | VDict _ => inr (repr_text item)
  end.

Definition _log (msg : string) (level : option string) (self : server) : server :=
  let msg := match level with
             | Some (String _ _ as level) => "*" +:+ upper level +:+ "* " +:+ msg
             | _ => msg
             end in
  write (Str (msg +:+ LF)) self.

Definition stop_remote_server (self : server) : pyval * server :=
  let prefix := "Robot Framework remote server at " +:+ (server_address self).1
                +:+ ":" +:+ decimal (server_address self).2 +:+ " " in
  let self := if _allow_stop self
              then set_shutdown true (_log (prefix +:+ "stopping") None self)
              else _log (prefix +:+ "does not allow stopping") (Some "WARN") self in
  (VBool true, self).

(** [a or b] on two attribute lookups. *)
Definition attr_or (a b : option attribute) : option attribute :=
  match a with
  | Some (Routine _) => a
  | Some (Data v) => if truthy v then a else b
  | None => b
  end.

(** A call of a library routine outside [run_keyword]. *)
Definition call_library (r : routine) (args : list pyval)
    (kwargs : gmap string pyval) : M pyval :=
  fun self =>
    let '(pieces, outcome) := call r args kwargs in
    (match outcome with
     | inl exc => inl (RaisedByLibrary exc)
     | inr v => inr v
     end, write_all pieces self).

(** [[attr for attr in attrs if attr[0] != '_' and
      inspect.isroutine(getattr(self._library, attr))]] *)
Fixpoint public_routines (lib : library) (attrs : list string)
  : attempt (list pyval) :=
  match attrs with
  | [] => inr []
  | attr :: rest =>
      match attr with
      | EmptyString => inl IndexError_string_index
      | String c _ =>
          if (c =? "_")%char then public_routines lib rest
          else
            (* [getattr(self._library, attr)], without a default *)
            match getattr lib attr with
            | None => inl (AttributeError_no_attribute attr)
            | Some a =>
                try! names := public_routines lib rest in
                inr (if isroutine (Some a) then s_ attr :: names else names)
            end
      end
  end.

Definition get_keyword_names : M pyval :=
  fun self =>
    let get_kw_names := attr_or (getattr (_library self) "get_keyword_names")
                                (getattr (_library self) "getKeywordNames") in
    (do! names := match get_kw_names with
                  | Some (Routine r) => call_library r [] ∅
                  | _ => lift (try! names := public_routines (_library self)
                                               (dir (_library self)) in
                               inr (VList names))
                  end in
     match names with
     | VList names => ret (VList (names ++ [s_ "stop_remote_server"]))
     | _ => raise (TypeError_concatenate names)
     end) self.

Definition _handle_binary_arg (arg : pyval) : pyval :=
  match arg with
  | VBinary data => s_ data
  | _ => arg
  end.

Definition _handle_binary_args (args : list pyval) (kwargs : gmap string pyval)
  : list pyval * gmap string pyval :=
  (map _handle_binary_arg args, _handle_binary_arg <$> kwargs).

Definition _get_keyword (name : string) (self : server) : option keyword :=
  if bool_decide (name = "stop_remote_server") then Some OwnStop
  else match getattr (_library self) name with
       | Some (Routine kw) => Some (LibraryKeyword kw)
       | _ => None
       end.

(** [inspect.getdoc(x) or ''] *)
Definition doc_or_empty (doc : option text) : text :=
  match doc with
  | Some doc => if is_empty doc then Str "" else doc
  | None => Str ""
  end.

Definition get_keyword_documentation (name : string) (self : server) : text :=
  if bool_decide (name = "__intro__")
  then doc_or_empty (library_doc (_library self))
  else if bool_decide (name = "__init__") && ismodule (_library self)
  then Str ""
  else doc_or_empty (match _get_keyword name self with
                     | Some (LibraryKeyword kw) => getdoc kw
                     | Some OwnStop | None => None
                     end).

Definition _handle_binary_result (result : text) : attempt pyval :=
  if negb (BINARY_search result)
  then inr (u_ (match result with
                | Str s => decode_ascii_replace s
                | Unicode cps => cps
                end))
  else match str_of_text result with
       | Some data => inr (VBinary data)
       | None => inl (ValueError_cannot_represent result)
       end.

Definition _str (item : pyval) : attempt pyval :=
  match item with
  | VNone => inr (s_ "")
  | VText item => _handle_binary_result item
  | _ =>
      try! item := unicode item in
      _handle_binary_result (Unicode item)
  end.

(** [dict(pairs)] for pairs whose keys come from [_str]: text keys are
    equal when their characters are (so [''] and [u''] are one key, the
    later value replacing the earlier), and an [xmlrpclib.Binary], an
    old-style instance with [__cmp__] and no [__hash__], cannot be hashed. *)
Definition same_key (a b : pyval) : bool :=
  match a, b with
  | VText s, VText t => bool_decide (chars s = chars t)
  | _, _ => false
  end.

Fixpoint setitem (key value : pyval) (d : list (pyval * pyval))
  : list (pyval * pyval) :=
  match d with
  | [] => [(key, value)]
  | (k, v) :: rest =>
      if same_key k key then (k, value) :: rest
      else (k, v) :: setitem key value rest
  end.

Fixpoint dict_update (d pairs : list (pyval * pyval))
  : attempt (list (pyval * pyval)) :=
  match pairs with
  | [] => inr d
  | (key, value) :: rest =>
      match key with
      | VText _ => dict_update (setitem key value d) rest
      | _ => inl (TypeError_unhashable key)
      end
  end.

Definition dict (pairs : list (pyval * pyval)) : attempt pyval :=
  try! d := dict_update [] pairs in
  inr (VDict d).

Fixpoint _handle_return_value (ret : pyval) : attempt pyval :=
  match ret with
  | VText ret => _handle_binary_result ret
  | VBool _ | VInt _ | VFloat _ => inr ret
  | VDict items =>
      try! pairs := for_each (fun '(key, value) =>
                                try! k := _str key in
                                try! v := _handle_return_value value in
                                inr (k, v)) items in
      dict pairs
  | VList items | VTuple items =>
      match for_each _handle_return_value items with
      | inr encoded => inr (VList encoded)
      | inl f => if is_TypeError f then _str ret else inl f
      end
  | VNone | VBinary _ | VObject _ =>
      (* iterating raises [TypeError] *)
      _str ret
  end.

(** The [try] and [except UnicodeError] of [_get_message_from_exception]:
    the message before it is encoded. *)
Definition exception_message (value : exc_instance) : attempt text :=
  match exc_unicode value with
  | Some msg => inr (Unicode msg)
  | None =>
      try! parts := for_each
                      (fun a => match a with
                                | VText (Str a) => inr (decode_ascii_replace a)
                                | _ => inl (TypeError_coercing_to_unicode a)
                                end) (exc_args value) in
      inr (join_with_space parts)
  end.

Definition _get_message_from_exception (value : exc_instance) : attempt pyval :=
  try! msg := exception_message value in
  _handle_binary_result msg.

(** ['%s: %s' % (name, message)]: a [unicode] message makes the result
    [unicode], decoding [name]; an [xmlrpclib.Binary] is formatted through
    its [__str__], which gives its data. *)
Definition format_name_message (name : string) (message : pyval) : attempt pyval :=
  match message with
  | VBinary message | VText (Str message) => inr (s_ (name +:+ ": " +:+ message))
  | _ =>
      try! message := unicode message in
      match decode_ascii name with
      | Some name => inr (u_ (name ++ u ": " ++ message))
      | None => inl UnicodeDecodeError
      end
  end.

Definition _get_error_message (exc_type : exc_class) (exc_value : exc_instance)
  : attempt pyval :=
  let name := __name__ exc_type in
  try! message := _get_message_from_exception exc_value in
  if negb (truthy message) then inr (s_ name)
  else if bool_decide (exc_type ∈ _generic_exceptions) then inr message
  else format_name_message name message.

Definition _get_error_traceback (exc_tb : list frame) : pyval :=
  let entries := tail (extract_tb exc_tb) in
  let trace := concat_str (format_list entries) in
  s_ ("Traceback (most recent call last):" +:+ LF +:+ trace).

Definition _intercept_stdout (self : server) : server :=
  set_stdout (Capture []) self.

Definition _restore_stdout : M pyval :=
  fun self =>
    match sys_stdout self with
    | Console => (inl AttributeError_getvalue, self)
    | Capture buflist =>
        match getvalue buflist with
        | None => (inl UnicodeDecodeError, self)
        | Some output => (_handle_binary_result output, set_stdout Console self)
        end
    end.

Definition _get_error_details (exc : exc_info) : M (pyval * pyval) :=
  if bool_decide (exc_type exc ∈ _fatal_exceptions)
  then do! _ := _restore_stdout in
       raise (Reraised exc)
  else lift (try! message := _get_error_message (exc_type exc) (exc_value exc) in
             inr (message, _get_error_traceback (exc_tb exc))).

(** The bound method [self.stop_remote_server] takes no argument besides
    [self]; the interpreter refuses any other call with a [TypeError]
    before its body runs. *)
Definition stop_arity_error (args : list pyval) (kwargs : gmap string pyval)
  : option string :=
  match args, map_to_list kwargs with
  | [], [] => None
  | _ :: _, kw =>
      Some ("stop_remote_server() takes exactly 1 argument ("
            +:+ decimal (1 + Z.of_nat (length args) + Z.of_nat (length kw))
            +:+ " given)")
  | [], (k, _) :: _ =>
      Some ("stop_remote_server() got an unexpected keyword argument '"
            +:+ substring 0 400 k +:+ "'")
  end.

(** The [try] block, the call of [self._get_keyword(name)] on the decoded
    arguments: the value returned, or the exception as the handler sees it. *)
Definition invoke (name : string) (args : list pyval) (kwargs : gmap string pyval)
    (self : server) : (exc_info + pyval) * server :=
  match _get_keyword name self with
  | None => (inl (raised_here TypeError "'NoneType' object is not callable"), self)
  | Some OwnStop =>
      match stop_arity_error args kwargs with
      | Some message => (inl (raised_here TypeError message), self)
      | None => let '(acknowledgement, self) := stop_remote_server self in
                (inr acknowledgement, self)
      end
  | Some (LibraryKeyword kw) =>
      let '(pieces, outcome) := call kw args kwargs in
      (match outcome with
       | inl exc => inl (through_run_keyword exc)
       | inr return_value => inr return_value
       end, write_all pieces self)
  end.

Definition run_keyword (name : string) (args : list pyval)
    (kwargs : option (gmap string pyval)) : M (gmap string pyval) :=
  fun self =>
    let '(args, kwargs) := _handle_binary_args args (default ∅ kwargs) in
    let result : gmap string pyval :=
      {[ "return" := s_ ""; "output" := s_ ""; "error" := s_ "";
         "traceback" := s_ "" ]} in
    let self := _intercept_stdout self in
    let '(outcome, self) := invoke name args kwargs self in
    (do! result := match outcome with
                   | inl exc =>
                       let result := <["status" := s_ "FAIL"]> result in
                       do! details := _get_error_details exc in
                       ret (<["traceback" := details.2]>
                              (<["error" := details.1]> result))
                   | inr return_value =>
                       let result := <["status" := s_ "PASS"]> result in
                       do! value := lift (_handle_return_value return_value) in
                       ret (<["return" := value]> result)
                   end in
     do! output := _restore_stdout in
     ret (<["output" := output]> result)) self.

End RobotRemoteServer.

(** ** Observations used to state the properties *)

(** A value that is safe on the wire as text: text free of the control
    characters of [BINARY], or a tagged binary blob. *)
Definition wire_safe (v : pyval) : Prop :=
  match v with
  | VText t => BINARY_search t = false
  | VBinary _ => True
  | _ => False
  end.

(** The characters a text or a blob carries. *)
Definition characters (v : pyval) : option (list N) :=
  match v with
  | VText t => Some (chars t)
  | VBinary data => Some (bytes data)
  | _ => None
  end.

(** The plain text of a value without control characters. *)
Definition decoded (result : text) : utext :=
  match result with
  | Str s => decode_ascii_replace s
  | Unicode cps => cps
  end.

(** The server is running while the loop condition of [serve_forever]
    holds. *)
Definition running (self : server) : bool := negb (_shutdown self).

(** What a fresh [StringIO] holds after the given writes. *)
Definition captured (pieces : list text) : StringIO :=
  foldl (fun buflist s => StringIO_write s buflist) [] pieces.

(** [output] is the encoding of what a fresh buffer holds after the given
    writes. *)
Definition output_of (pieces : list text) (output : pyval) : Prop :=
  exists text, getvalue (captured pieces) = Some text /\
               _handle_binary_result text = inr output.

(** The pieces that the call of a keyword writes to [sys.stdout]: those of
    the library routine, or the log line of the server's own stop method. *)
Definition written (name : string) (args : list pyval) (kwargs : gmap string pyval)
    (self : server) : list text :=
  match _get_keyword name self with
  | Some (LibraryKeyword kw) => (call kw args kwargs).1
  | Some OwnStop =>
      match stop_arity_error args kwargs with
      | None => console (stop_remote_server
                           (set_console [] (set_stdout Console self))).2
      | Some _ => []
      end
  | None => []
  end.

(** The two shapes of a result record. *)
Definition pass_result (value output : pyval) : gmap string pyval :=
  {[ "status" := s_ "PASS"; "return" := value; "output" := output;
     "error" := s_ ""; "traceback" := s_ "" ]}.

Definition fail_result (error traceback output : pyval) : gmap string pyval :=
  {[ "status" := s_ "FAIL"; "return" := s_ ""; "output" := output;
     "error" := error; "traceback" := traceback ]}.



(** [needle in haystack] for two character sequences. *)
Fixpoint starts_with (needle haystack : list N) : bool :=
  match needle, haystack with
  | [], _ => true
  | _ :: _, [] => false
  | a :: needle, b :: haystack => (a =? b)%N && starts_with needle haystack
  end.

Fixpoint contains (needle haystack : list N) : bool :=
  starts_with needle haystack ||
  match haystack with
  | [] => false
  | _ :: rest => contains needle rest
  end.

(** An error text that tells the caller the operation does not exist: it
    says "not found" or at least names the operation. *)
Definition states_not_found (name : string) (error : pyval) : bool :=
  match characters error with
  | Some cs => contains (u "not found") cs || contains (bytes name) cs
  | None => false
  end.

(** ** A sample backing object

    A library object (not a module) with a handful of keywords, used to
    run the server on concrete calls. *)

Module Samples.

(** A form feed, one of the characters of [BINARY]. *)
Definition FF : string := String "012"%char EmptyString.

(** A stand-in for the interpreter's [repr]; the calls below do not reach it. *)
Definition sample_repr : pyval -> utext := fun _ => u "<repr>".

Definition returns (pieces : list text) (v : pyval) : routine :=
  {| getdoc := None; call := fun _ _ => (pieces, inr v) |}.

Definition raises (exc : exc_info) : routine :=
  {| getdoc := None; call := fun _ _ => ([], inl exc) |}.

(** [def greet(): print 'hello'; return u'done'] *)
Definition greet : routine := returns [Str "hello"; Str LF] (u_ (u "done")).

(** [def flag(): return True] *)
Definition flag : routine := returns [] (VBool true).

(** [def boom(): raise RuntimeError('boom')] *)
Definition boom_exc : exc_info :=
  {| exc_type := RuntimeError;
     exc_value := new_exception "boom";
     exc_tb := [{| f_filename := "keywords.py"; f_lineno := 7;
                   f_name := "boom";
                   f_line := "    raise RuntimeError('boom')" |}] |}.

(** [def bad(): raise MyError('bad')] *)
Definition bad_exc : exc_info :=
  {| exc_type := OtherClass "MyError";
     exc_value := new_exception "bad";
     exc_tb := [{| f_filename := "keywords.py"; f_lineno := 10;
                   f_name := "bad";
                   f_line := "    raise MyError('bad')" |}] |}.

(** [def leave(): sys.exit()] *)
Definition leave_exc : exc_info :=
  {| exc_type := SystemExit;
     exc_value := {| exc_args := []; exc_unicode := Some [] |};
     exc_tb := [{| f_filename := "keywords.py"; f_lineno := 13;
                   f_name := "leave";
                   f_line := "    sys.exit()" |}] |}.

(** [def garbled(): raise RuntimeError(u'\x01\xe4')] *)
Definition garbled_exc : exc_info :=
  {| exc_type := RuntimeError;
     exc_value := {| exc_args := [u_ [1; 228]%N];
                     exc_unicode := Some [1; 228]%N |};
     exc_tb := [{| f_filename := "keywords.py"; f_lineno := 16;
                   f_name := "garbled";
                   f_line := "    raise RuntimeError(u'\x01\xe4')" |}] |}.

(** A failing assertion on a source line that has a form feed in its
    trailing comment. *)
Definition page_exc : exc_info :=
  {| exc_type := AssertionError;
     exc_value := new_exception "page break";
     exc_tb := [{| f_filename := "keywords.py"; f_lineno := 19;
                   f_name := "page";
                   f_line := "    assert False, 'page break'  # " +:+ FF
                             +:+ " new page" |}] |}.

(** The initializer of the object, with the docstring [Set up the library.] *)
Definition init : routine :=
  {| getdoc := Some (Str "Set up the library.");
     call := fun _ _ => ([], inr VNone) |}.

(** [def stop_remote_server(self): return 'mine'] *)
Definition own_stop : routine := returns [] (s_ "mine").

Definition sample_library : library :=
  {| attributes :=
       {[ "__init__" := Routine init;
          "bad" := Routine (raises bad_exc);
          "boom" := Routine (raises boom_exc);
          "flag" := Routine flag;
          "garbled" := Routine (raises garbled_exc);
          "greet" := Routine greet;
          "leave" := Routine (raises leave_exc);
          "page" := Routine (raises page_exc);
          "stop_remote_server" := Routine own_stop;
          "version" := Data (s_ "1.0") ]};
     unset := ∅;
     library_doc := Some (Str "Sample keywords.");
     ismodule := false |}.

Definition sample : server :=
  {| _library := sample_library;
     _allow_stop := false;
     _shutdown := false;
     server_address := ("127.0.0.1", 8270%Z);
     sys_stdout := Console;
     console := [] |}.

(** The same server, started with [allow_stop=True]. *)
Definition stoppable : server :=
  {| _library := sample_library;
     _allow_stop := true;
     _shutdown := false;
     server_address := ("127.0.0.1", 8270%Z);
     sys_stdout := Console;
     console := [] |}.

(** A module as backing object, with one function and a lister of its
    own. *)
Definition ping : routine := returns [] (s_ "pong").

Definition module_library : library :=
  {| attributes :=
       {[ "__init__" := Routine init;
          "get_keyword_names" := Routine (returns [] (VList [s_ "ping"]));
          "ping" := Routine ping ]};
     unset := ∅;
     library_doc := None;
     ismodule := true |}.

Definition module_server : server :=
  {| _library := module_library;
     _allow_stop := true;
     _shutdown := false;
     server_address := ("127.0.0.1", 8270%Z);
     sys_stdout := Console;
     console := [] |}.

(** The traceback text for a failure inside one frame of [keywords.py]. *)
Definition traceback_text (lineno name line : string) : pyval :=
  s_ ("Traceback (most recent call last):" +:+ LF +:+
      "  File " +:+ QUOTE +:+ "keywords.py" +:+ QUOTE +:+ ", line " +:+ lineno
      +:+ ", in " +:+ name +:+ LF +:+ "    " +:+ line +:+ LF).

Definition page_traceback : pyval :=
  traceback_text "19" "page"
    ("assert False, 'page break'  # " +:+ FF +:+ " new page").


(** [def cafe(): raise RuntimeError('caf\xc3\xa9')]: a message with two
    bytes above 0x7F, which [unicode(value)] cannot decode. *)
Definition cafe : string :=
  "caf" +:+ String "195"%char (String "169"%char EmptyString).

Definition cafe_exc : exc_info :=
  {| exc_type := RuntimeError;
     exc_value := new_exception cafe;
     exc_tb := [{| f_filename := "keywords.py"; f_lineno := 22;
                   f_name := "cafe";
                   f_line := "    raise RuntimeError('caf\xc3\xa9')" |}] |}.

(** [def split(): raise SplitError('caf\xc3\xa9', 'au lait')], of a class
    whose [__unicode__] raises [UnicodeDecodeError]. *)
Definition split_exc : exc_info :=
  {| exc_type := OtherClass "SplitError";
     exc_value := {| exc_args := [s_ cafe; s_ "au lait"];
                     exc_unicode := None |};
     exc_tb := [{| f_filename := "keywords.py"; f_lineno := 25;
                   f_name := "split";
                   f_line := "    raise SplitError('caf\xc3\xa9', 'au lait')" |}] |}.

Definition failing_library : library :=
  {| attributes := {[ "cafe" := Routine (raises cafe_exc);
                      "split" := Routine (raises split_exc) ]};
     unset := ∅;
     library_doc := None;
     ismodule := false |}.

Definition failing : server :=
  {| _library := failing_library;
     _allow_stop := false;
     _shutdown := false;
     server_address := ("127.0.0.1", 8270%Z);
     sys_stdout := Console;
     console := [] |}.

(** An object with a lister of its own, which lists [ping] only, and
    with a public routine of the reserved name. *)
Definition lister : routine := returns [] (VList [s_ "ping"]).



End Samples.

(** ** The rest of the server: lifecycle and argument introspection *)



(** [serve_forever]: [while not self._shutdown: self.handle_request()].
    The list holds what [handle_request] does to the server for each of
    the requests that arrive, in order. *)
Fixpoint serve_forever (requests : list (server -> server)) (self : server)
  : server :=
  match requests with
  | [] => self
  | handle_request :: rest =>
      if _shutdown self then self
      else serve_forever rest (handle_request self)
  end.

(** What [inspect.getargspec] returns: [(args, varargs, keywords,
    defaults)], where [defaults] is [None] or a tuple. *)
Record ArgSpec := {
  spec_args : list string;
  spec_varargs : option string;
  spec_keywords : option string;
  spec_defaults : option (list pyval)
}.

(** What leaves [get_keyword_arguments] as an exception. *)
Inductive introspection_failure :=
| TypeError_not_a_function
    (* [inspect.getargspec] on a routine that is not a Python function *)
| UnicodeDecodeError_in_format.
    (* a [unicode] default next to a name that is not ASCII *)

Section Introspection.

(** [inspect.getargspec] and [inspect.ismethod] for a routine of the
    library ([getargspec] raises for a built-in), and [str(d)] for a
    default value that is not text. *)
Variable getargspec : routine -> option ArgSpec.
Variable ismethod : routine -> bool.
Variable str_text : pyval -> string.

(** The same for what [_get_keyword] returns: [self.stop_remote_server]
    is a bound method of one parameter, [self]. *)
Definition inspect_getargspec (kw : keyword) : option ArgSpec :=
  match kw with
  | OwnStop => Some {| spec_args := ["self"]; spec_varargs := None;
                       spec_keywords := None; spec_defaults := None |}
  | LibraryKeyword kw => getargspec kw
  end.

Definition inspect_ismethod (kw : keyword) : bool :=
  match kw with
  | OwnStop => true
  | LibraryKeyword kw => ismethod kw
  end.

(** ['%s=%s' % (n, d)] *)
Definition format_default (n : string) (d : pyval)
  : introspection_failure + pyval :=
  match d with
  | VText (Unicode d) =>
      match decode_ascii n with
      | Some n => inr (u_ (n ++ u "=" ++ d))
      | None => inl UnicodeDecodeError_in_format
      end
  | VText (Str d) | VBinary d => inr (s_ (n +:+ "=" +:+ d))
  | _ => inr (s_ (n +:+ "=" +:+ str_text d))
  end.

(** [['%s=%s' % (n, d) for n, d in pairs]] *)
Fixpoint format_defaults (pairs : list (string * pyval))
  : introspection_failure + list pyval :=
  match pairs with
  | [] => inr []
  | (n, d) :: rest =>
      match format_default n d with
      | inl f => inl f
      | inr item =>
          match format_defaults rest with
          | inl f => inl f
          | inr items => inr (item :: items)
          end
      end
  end.

(** ['*%s' % varargs] appended when [varargs] is set, and the same with
    two stars for [kwargs]. *)
Definition append_marker (stars : string) (collector : option string)
    (args : list pyval) : list pyval :=
  match collector with
  | Some (String _ _ as collector) => args ++ [s_ (stars +:+ collector)]
  | _ => args
  end.

Definition _arguments_from_kw (kw : keyword)
  : introspection_failure + list pyval :=
  match inspect_getargspec kw with
  | None => inl TypeError_not_a_function
  | Some spec =>
      let args := spec_args spec in
      let args := if inspect_ismethod kw then tail args else args in
      match
        match spec_defaults spec with
        | Some ((_ :: _) as defaults) =>
            (* [args[:-len(defaults)]] and [args[-len(defaults):]] *)
            let names := drop (length args - length defaults) args in
            let args := take (length args - length defaults) args in
            match format_defaults (zip names defaults) with
            | inl f => inl f
            | inr formatted => inr (map s_ args ++ formatted)
            end
        | _ => inr (map s_ args)
        end
      with
      | inl f => inl f
      | inr args =>
          inr (append_marker "**" (spec_keywords spec)
                 (append_marker "*" (spec_varargs spec) args))
      end
  end.

Definition get_keyword_arguments (name : string) (self : server)
  : introspection_failure + list pyval :=
  match _get_keyword name self with
  | None => inr []
  | Some kw => _arguments_from_kw kw
  end.

End Introspection.

(** ** Further observations *)

(** The shapes a value may have on the wire: clean text, a blob, a
    number, a list of such values, or a mapping from clean text to such
    values. *)
Definition wire_key (k : pyval) : Prop :=
  exists t, k = VText t /\ BINARY_search t = false.

Inductive wire_value : pyval -> Prop :=
| wire_text t : BINARY_search t = false -> wire_value (VText t)
| wire_binary data : wire_value (VBinary data)
| wire_bool b : wire_value (VBool b)
| wire_int n : wire_value (VInt n)
| wire_float bits : wire_value (VFloat bits)
| wire_list items : Forall wire_value items -> wire_value (VList items)
| wire_dict items :
    Forall (fun kv => wire_key kv.1 /\ wire_value kv.2) items ->
    wire_value (VDict items).

(** Values made of [None], numbers, byte strings, lists and tuples, and
    mappings of such values under [None], boolean or clean text keys. *)
Definition simple_key (k : pyval) : Prop :=
  k = VNone \/ (exists b, k = VBool b) \/
  (exists t, k = VText t /\ BINARY_search t = false).

Inductive simple_value : pyval -> Prop :=
| simple_none : simple_value VNone
| simple_bool b : simple_value (VBool b)
| simple_int n : simple_value (VInt n)
| simple_float bits : simple_value (VFloat bits)
| simple_str s : simple_value (s_ s)
| simple_list items : Forall simple_value items -> simple_value (VList items)
| simple_tuple items : Forall simple_value items -> simple_value (VTuple items)
| simple_dict items :
    Forall (fun kv => simple_key kv.1 /\ simple_value kv.2) items ->
    simple_value (VDict items).

(** Whether a variadic collector is present. *)
Definition has_collector (collector : option string) : nat :=
  match collector with
  | Some (String _ _) => 1
  | _ => 0
  end.



(** A top-level [xmlrpclib.Binary]. *)
Definition is_Binary (v : pyval) : bool :=
  match v with VBinary _ => true | _ => false end.

(** Induction on values, through the lists they are nested in. *)
Section pyval_induction.

Variable P : pyval -> Prop.
Hypothesis HNone : P VNone.
Hypothesis HBool : forall b, P (VBool b).
Hypothesis HInt : forall n, P (VInt n).
Hypothesis HFloat : forall bits, P (VFloat bits).
Hypothesis HText : forall t, P (VText t).
Hypothesis HBinary : forall data, P (VBinary data).
Hypothesis HList : forall items, Forall P items -> P (VList items).
Hypothesis HTuple : forall items, Forall P items -> P (VTuple items).
Hypothesis HDict :
  forall items, Forall (fun kv => P kv.1 /\ P kv.2) items -> P (VDict items).
Hypothesis HObject : forall cps, P (VObject cps).

Fixpoint pyval_induction (v : pyval) : P v :=
  match v with
  | VNone => HNone
  | VBool b => HBool b
  | VInt n => HInt n
  | VFloat bits => HFloat bits
  | VText t => HText t
  | VBinary data => HBinary data
  | VList items =>
      HList items
        ((fix go (l : list pyval) : Forall P l :=
            match l with
            | [] => @List.Forall_nil _ P
            | x :: rest =>
                @List.Forall_cons _ P x rest (pyval_induction x) (go rest)
            end) items)
  | VTuple items =>
      HTuple items
        ((fix go (l : list pyval) : Forall P l :=
            match l with
            | [] => @List.Forall_nil _ P
            | x :: rest =>
                @List.Forall_cons _ P x rest (pyval_induction x) (go rest)
            end) items)
  | VDict items =>
      HDict items
        ((fix go (l : list (pyval * pyval))
            : Forall (fun kv => P kv.1 /\ P kv.2) l :=
            match l with
            | [] => @List.Forall_nil _ _
            | (k, x) :: rest =>
                @List.Forall_cons _ (fun kv => P kv.1 /\ P kv.2) (k, x) rest
                  (conj (pyval_induction k) (pyval_induction x)) (go rest)
            end) items)
  | VObject cps => HObject cps
  end.

End pyval_induction.

(** ** Further sample objects *)

Module MoreSamples.

Import Samples.






(** The names of the routines of the sample object. *)
Definition sample_own_names : list pyval :=
  [s_ "bad"; s_ "boom"; s_ "flag"; s_ "garbled"; s_ "greet"; s_ "leave";
   s_ "page"; s_ "stop_remote_server"].

(** [raise MyError('page\x0c')] *)
Definition page_message : string := "page" +:+ FF.

(** An exception whose [unicode] raises, with arguments [('a', 1, None)]. *)
Definition mixed_exception : exc_instance :=
  {| exc_args := [s_ "a"; VInt 1; VNone]; exc_unicode := None |}.

(** The signature of [def join(self, name, times=1, sep=', ', *rest)]. *)
Definition join_spec : ArgSpec :=
  {| spec_args := ["self"; "name"; "times"; "sep"];
     spec_varargs := Some "rest";
     spec_keywords := None;
     spec_defaults := Some [VInt 1; s_ ", "] |}.

(** An object all of whose routines are methods with that signature. *)
Definition join_getargspec : routine -> option ArgSpec :=
  fun _ => Some join_spec.

Definition join_ismethod : routine -> bool := fun _ => true.

Definition join_str (v : pyval) : string :=
  match v with
  | VInt n => decimal n
  | _ => "<object>"
  end.

(** A request that stops the server, and one that runs a keyword. *)
Definition stop_request : server -> server :=
  fun self => (stop_remote_server self).2.

End MoreSamples.

(** ** Properties *)

(** Closes an equation between closed terms by evaluation. *)
Ltac computed :=
  lazymatch goal with
  | |- _ = ?rhs => vm_cast_no_check (@eq_refl _ rhs)
  end.

Section Properties.

Variable repr_text : pyval -> utext.

(** *** The value codec *)

Lemma decode_ascii_replace_clean (s : string) :
  BINARY_search (Str s) = false ->
  BINARY_search (Unicode (decode_ascii_replace s)) = false.
Proof.
  unfold BINARY_search, decode_ascii_replace; simpl.
  induction (bytes s) as [|b bs IH]; simpl; [done|].
  intros [Hb Hbs]%orb_false_elim.
  rewrite (IH Hbs), orb_false_r.
  destruct (is_ascii b); [exact Hb | reflexivity].
Qed.

(** The encoder returns clean [unicode] text, or a blob holding the
    [str] form of a text that has a control character. *)
Lemma handle_binary_result_inv (result : text) (v : pyval) :
  _handle_binary_result result = inr v ->
  (v = u_ (decoded result) /\ BINARY_search result = false /\
   BINARY_search (Unicode (decoded result)) = false) \/
  (exists data, v = VBinary data /\ str_of_text result = Some data /\
                BINARY_search result = true).
Proof.
  unfold _handle_binary_result.
  destruct (BINARY_search result) eqn:Hsearch; simpl.
  - destruct (str_of_text result) as [data|]; [|discriminate].
    intros [= <-]. right. by exists data.
  - intros [= <-]. left. split; [reflexivity|]. split; [done|].
    destruct result as [s|cps]; [by apply decode_ascii_replace_clean | done].
Qed.

Lemma handle_binary_result_wire_safe (result : text) (v : pyval) :
  _handle_binary_result result = inr v -> wire_safe v.
Proof.
  intros H. apply handle_binary_result_inv in H
    as [(-> & _ & H) | (data & -> & _)]; [exact H | exact I].
Qed.

Lemma handle_binary_result_never_str (result : text) (s : string) :
  _handle_binary_result result <> inr (s_ s).
Proof.
  intros H. apply handle_binary_result_inv in H
    as [([=] & _) | (data & [=] & _)].
Qed.

Lemma ord_chr (n : N) : is_ascii n = true -> ord (chr n) = n.
Proof.
  unfold is_ascii, ord, chr. intros H%N.ltb_lt.
  apply N_ascii_embedding. lia.
Qed.

Lemma bytes_of_list (l : list ascii) :
  bytes (string_of_list_ascii l) = map ord l.
Proof. unfold bytes. by rewrite list_ascii_of_string_of_list_ascii. Qed.

Lemma bytes_app (a b : string) : bytes (a +:+ b) = bytes a ++ bytes b.
Proof.
  unfold bytes. induction a as [|c a IH]; simpl; [done|]. by rewrite IH.
Qed.

Lemma encode_ascii_bytes (cps : utext) (data : string) :
  encode_ascii cps = Some data -> bytes data = cps.
Proof.
  unfold encode_ascii. destruct (forallb is_ascii cps) eqn:H; [|discriminate].
  intros [= <-]. rewrite bytes_of_list.
  induction cps as [|c cps IH]; simpl in *; [done|].
  apply andb_prop in H as [Hc Hcps]. by rewrite ord_chr, IH.
Qed.

Lemma decode_ascii_bytes (s : string) (cps : utext) :
  decode_ascii s = Some cps -> cps = bytes s.
Proof. unfold decode_ascii. by destruct (forallb _ _); intros [=]. Qed.

(** C5: a byte string with a control byte is encoded as a tagged blob
    holding exactly those bytes, and the inbound argument decoder gives
    the byte string back; a text with a control character that has no
    [str] form makes the encoder raise [ValueError]. *)
Theorem binary_round_trip (result : text) :
  BINARY_search result = true ->
  (forall data, result = Str data ->
     _handle_return_value repr_text (VText result) = inr (VBinary data) /\
     _handle_binary_arg (VBinary data) = VText result) /\
  (str_of_text result = None ->
     _handle_return_value repr_text (VText result)
     = inl (ValueError_cannot_represent result)).
Proof.
  intros Hsearch. simpl. unfold _handle_binary_result. rewrite Hsearch. simpl.
  split.
  - by intros data ->.
  - by intros ->.
Qed.

(** C10: a boolean return value leaves the return-value encoder
    unchanged, not as its text, and is the [return] field of the result. *)
Theorem boolean_returned_unchanged (b : bool) :
  _handle_return_value repr_text (VBool b) = inr (VBool b) /\
  _handle_return_value repr_text (VBool b) <> _str repr_text (VBool b) /\
  forall name args kwargs self result self',
    (invoke name (map _handle_binary_arg args)
       (_handle_binary_arg <$> default ∅ kwargs) (_intercept_stdout self)).1
    = inr (VBool b) ->
    run_keyword repr_text name args kwargs self = (inr result, self') ->
    result !! "return" = Some (VBool b).
Proof.
  split; [reflexivity|]. split; [by destruct b|].
  intros name args kwargs self result self' Hcall.
  unfold run_keyword, _handle_binary_args.
  destruct (invoke _ _ _ _) as [outcome self1]. simpl in Hcall. subst outcome.
  unfold bind, lift, ret. simpl.
  destruct (_restore_stdout self1) as [[f|output] self2]; [discriminate|].
  intros [= <- <-]. by simplify_map_eq.
Qed.

(** C9: the stop operation always acknowledges with [True]; it sets the
    shutdown flag when stopping is allowed and leaves the flags as they
    are when it is not. *)
Theorem stop_acknowledged_either_way (self : server) :
  (stop_remote_server self).1 = VBool true /\
  _allow_stop (stop_remote_server self).2 = _allow_stop self /\
  _library (stop_remote_server self).2 = _library self /\
  server_address (stop_remote_server self).2 = server_address self /\
  (_allow_stop self = false ->
     _shutdown (stop_remote_server self).2 = _shutdown self /\
     running (stop_remote_server self).2 = running self) /\
  (_allow_stop self = true ->
     _shutdown (stop_remote_server self).2 = true /\
     running (stop_remote_server self).2 = false).
Proof.
  unfold stop_remote_server, running, _log, write.
  destruct (_allow_stop self) eqn:Hallow, (sys_stdout self); simpl;
    rewrite ?Hallow; repeat split; try done.
Qed.

(** C8 (as the code has it): the documentation of [__init__] is empty when
    the backing object is a module; for any other backing object it is
    what [inspect.getdoc] gives for its [__init__] routine, and empty only
    when there is no such routine or it has no documentation. *)
Theorem init_documentation (self : server) :
  (ismodule (_library self) = true ->
     get_keyword_documentation "__init__" self = Str "") /\
  (ismodule (_library self) = false ->
     get_keyword_documentation "__init__" self
     = doc_or_empty (match getattr (_library self) "__init__" with
                     | Some (Routine kw) => getdoc kw
                     | _ => None
                     end)).
Proof.
  unfold get_keyword_documentation, _get_keyword.
  rewrite !bool_decide_eq_false_2 by discriminate.
  rewrite bool_decide_eq_true_2 by reflexivity. simpl.
  split; intros ->; [reflexivity|].
  by destruct (getattr _ _) as [[kw|v]|].
Qed.

(** *** The invocation engine *)

(** [run_keyword], case by case. *)
Lemma run_keyword_cases name args kwargs self :
  run_keyword repr_text name args kwargs self =
  let '(outcome, self1) :=
    invoke name (map _handle_binary_arg args)
      (_handle_binary_arg <$> default ∅ kwargs) (_intercept_stdout self) in
  let result : gmap string pyval :=
    {[ "return" := s_ ""; "output" := s_ ""; "error" := s_ "";
       "traceback" := s_ "" ]} in
  match outcome with
  | inr return_value =>
      match _handle_return_value repr_text return_value with
      | inl f => (inl f, self1)
      | inr value =>
          match _restore_stdout self1 with
          | (inl f, self2) => (inl f, self2)
          | (inr output, self2) =>
              (inr (<["output" := output]>
                      (<["return" := value]>
                         (<["status" := s_ "PASS"]> result))), self2)
          end
      end
  | inl exc =>
      if bool_decide (exc_type exc ∈ _fatal_exceptions)
      then match _restore_stdout self1 with
           | (inl f, self2) => (inl f, self2)
           | (inr _, self2) => (inl (Reraised exc), self2)
           end
      else match _get_error_message repr_text (exc_type exc) (exc_value exc) with
           | inl f => (inl f, self1)
           | inr error =>
               match _restore_stdout self1 with
               | (inl f, self2) => (inl f, self2)
               | (inr output, self2) =>
                   (inr (<["output" := output]>
                           (<["traceback" := _get_error_traceback (exc_tb exc)]>
                              (<["error" := error]>
                                 (<["status" := s_ "FAIL"]> result)))), self2)
               end
           end
  end.
Proof.
  unfold run_keyword, _handle_binary_args.
  destruct (invoke _ _ _ _) as [[exc|return_value] self1]; simpl.
  - unfold bind, _get_error_details.
    destruct (bool_decide _); simpl.
    + unfold bind, raise. by destruct (_restore_stdout self1) as [[f|output] self2].
    + unfold lift. simpl.
      destruct (_get_error_message _ _ _) as [f|error]; simpl; [done|].
      unfold ret. by destruct (_restore_stdout self1) as [[f|output] self2].
  - unfold bind, lift, ret.
    destruct (_handle_return_value _ _) as [f|value]; simpl; [done|].
    by destruct (_restore_stdout self1) as [[f|output] self2].
Qed.

Lemma write_all_capture pieces self buflist :
  sys_stdout self = Capture buflist ->
  write_all pieces self =
  set_stdout (Capture (foldl (fun b s => StringIO_write s b) buflist pieces)) self.
Proof.
  revert self buflist. induction pieces as [|s pieces IH]; intros self buflist H.
  - simpl. destruct self; simpl in *; by subst.
  - change (write_all (s :: pieces) self) with (write_all pieces (write s self)).
    unfold write. rewrite H.
    by rewrite (IH _ (StringIO_write s buflist)).
Qed.

(** Under capture, a call leaves in the buffer exactly what it wrote; the
    real console, the library and the stop permission are untouched. *)
Lemma invoke_under_capture name args kwargs self :
  let after := (invoke name args kwargs (_intercept_stdout self)).2 in
  sys_stdout after = Capture (captured (written name args kwargs self)) /\
  console after = console self /\
  _library after = _library self /\
  _allow_stop after = _allow_stop self /\
  server_address after = server_address self.
Proof.
  unfold invoke, written, _get_keyword. simpl.
  destruct (bool_decide (name = "stop_remote_server")).
  - destruct (stop_arity_error args kwargs); [done|].
    unfold stop_remote_server, _log, write. simpl.
    by destruct (_allow_stop self) eqn:Hallow.
  - destruct (getattr (_library self) name) as [[kw|v]|]; [|done..].
    destruct (call kw args kwargs) as [pieces outcome]. simpl.
    by rewrite (write_all_capture _ _ []).
Qed.

Lemma restore_stdout_inv self buflist output self2 :
  sys_stdout self = Capture buflist ->
  _restore_stdout self = (inr output, self2) ->
  self2 = set_stdout Console self /\
  exists text, getvalue buflist = Some text /\
               _handle_binary_result text = inr output.
Proof.
  unfold _restore_stdout. intros ->.
  destruct (getvalue buflist) as [text|]; [|discriminate].
  intros [= H <-]. split; [done|]. by exists text.
Qed.

(** What a call writes depends on the library, the stop permission and
    the address only. *)
Lemma written_same name args kwargs self self' :
  _library self' = _library self ->
  _allow_stop self' = _allow_stop self ->
  server_address self' = server_address self ->
  written name args kwargs self' = written name args kwargs self.
Proof.
  intros Hlib Hallow Haddr. unfold written, _get_keyword. rewrite Hlib.
  destruct (bool_decide _); [|by destruct (getattr _ _) as [[kw|v]|]].
  destruct (stop_arity_error args kwargs); [done|].
  unfold stop_remote_server, _log, write. simpl. rewrite Hallow, Haddr.
  by destruct (_allow_stop self).
Qed.

(** A result of [run_keyword] comes with the console routing restored,
    nothing on the real console, and the encoding of the call's own writes
    as [output]. *)
Lemma run_keyword_output name args kwargs self result self' :
  run_keyword repr_text name args kwargs self = (inr result, self') ->
  (sys_stdout self' = Console /\ console self' = console self /\
   _library self' = _library self /\ _allow_stop self' = _allow_stop self /\
   server_address self' = server_address self) /\
  exists output,
    result !! "output" = Some output /\
    output_of (written name (map _handle_binary_arg args)
                 (_handle_binary_arg <$> default ∅ kwargs) self) output.
Proof.
  rewrite run_keyword_cases.
  pose proof (invoke_under_capture name (map _handle_binary_arg args)
                (_handle_binary_arg <$> default ∅ kwargs) self) as Hinv.
  destruct (invoke _ _ _ _) as [outcome self1]. simpl in Hinv.
  destruct Hinv as (Hout & Hcon & Hlib & Hallow & Haddr).
  assert (forall output self2,
             _restore_stdout self1 = (inr output, self2) ->
             (sys_stdout self2 = Console /\ console self2 = console self /\
              _library self2 = _library self /\
              _allow_stop self2 = _allow_stop self /\
              server_address self2 = server_address self) /\
             output_of (written name (map _handle_binary_arg args)
                          (_handle_binary_arg <$> default ∅ kwargs) self) output)
    as Hrestore.
  { intros output self2 H.
    destruct (restore_stdout_inv _ _ _ _ Hout H) as (-> & text & Hget & Henc).
    split; [done|]. by exists text. }
  destruct outcome as [exc|return_value].
  - destruct (bool_decide _).
    { by destruct (_restore_stdout self1) as [[f|output] self2]. }
    destruct (_get_error_message _ _ _) as [f|error]; [discriminate|].
    destruct (_restore_stdout self1) as [[f|output] self2] eqn:Hr; [discriminate|].
    intros [= <- <-]. destruct (Hrestore _ _ eq_refl) as [Hstate Houtput].
    split; [done|]. exists output. by simplify_map_eq.
  - destruct (_handle_return_value _ _) as [f|value]; [discriminate|].
    destruct (_restore_stdout self1) as [[f|output] self2] eqn:Hr; [discriminate|].
    intros [= <- <-]. destruct (Hrestore _ _ eq_refl) as [Hstate Houtput].
    split; [done|]. exists output. by simplify_map_eq.
Qed.

(** C7: when an invocation ends in a result, normal console routing is
    back, nothing of the call has reached the real console, and [output]
    is the encoding of exactly what that call wrote; the same holds for an
    invocation that follows, whose [output] is made of its own writes
    alone. *)
Theorem output_is_what_the_call_wrote name args kwargs self result self' :
  run_keyword repr_text name args kwargs self = (inr result, self') ->
  sys_stdout self' = Console /\
  console self' = console self /\
  (exists output,
     result !! "output" = Some output /\
     output_of (written name (map _handle_binary_arg args)
                  (_handle_binary_arg <$> default ∅ kwargs) self) output) /\
  forall name2 args2 kwargs2 result2 self'',
    run_keyword repr_text name2 args2 kwargs2 self' = (inr result2, self'') ->
    sys_stdout self'' = Console /\
    console self'' = console self /\
    exists output2,
      result2 !! "output" = Some output2 /\
      output_of (written name2 (map _handle_binary_arg args2)
                   (_handle_binary_arg <$> default ∅ kwargs2) self) output2.
Proof.
  intros H1. apply run_keyword_output in H1
    as [(Hout & Hcon & Hlib & Hallow & Haddr) Houtput].
  split; [done|]. split; [done|]. split; [done|].
  intros name2 args2 kwargs2 result2 self'' H2.
  apply run_keyword_output in H2
    as [(Hout2 & Hcon2 & _) (output2 & Hlookup & Houtput2)].
  split; [done|]. split; [congruence|].
  exists output2. split; [done|].
  by rewrite <- (written_same _ _ _ self self').
Qed.

(** C4 (as the code has it): a name that resolves to nothing makes the
    call of [None] raise [TypeError], which is caught like any failure of
    a keyword: the invocation returns a FAIL result whose [error] is the
    text of that [TypeError], with an empty [return] and [output] and a
    traceback that holds the header line only. *)
Theorem unknown_keyword_gives_fail_result name args kwargs self :
  _get_keyword name self = None ->
  run_keyword repr_text name args kwargs self =
  (inr (fail_result (u_ (u "TypeError: 'NoneType' object is not callable"))
          (s_ ("Traceback (most recent call last):" +:+ LF))
          (u_ [])),
   set_stdout Console self).
Proof.
  intros Hnone. rewrite run_keyword_cases. unfold invoke.
  replace (_get_keyword name (_intercept_stdout self)) with (@None keyword)
    by (symmetry; exact Hnone).
  cbv beta iota zeta.
  assert (bool_decide
            (exc_type (raised_here TypeError "'NoneType' object is not callable")
             ∈ _fatal_exceptions) = false) as -> by computed.
  assert (_get_error_message repr_text
            (exc_type (raised_here TypeError "'NoneType' object is not callable"))
            (exc_value (raised_here TypeError "'NoneType' object is not callable"))
          = inr (u_ (u "TypeError: 'NoneType' object is not callable")))
    as -> by computed.
  assert (_restore_stdout (_intercept_stdout self)
          = (inr (u_ []), set_stdout Console self)) as -> by reflexivity.
  reflexivity.
Qed.

Lemma exception_message_shape value msg :
  exception_message value = inr msg ->
  (exists cps, msg = Unicode cps) \/ msg = Str "".
Proof.
  unfold exception_message. destruct (exc_unicode value) as [cps|].
  - intros [= <-]. left. by exists cps.
  - destruct (for_each _ _) as [f|[|part parts]]; simpl; [discriminate|..].
    + intros [= <-]. by right.
    + intros [= <-]. left. by eexists.
Qed.

(** The message of a failure: what [unicode(value)] gives when that
    conversion succeeds, and otherwise the arguments of the failure, all of
    them byte strings, decoded with replacement and joined by spaces. *)
Lemma exception_message_inv value msg :
  exception_message value = inr msg ->
  match exc_unicode value with
  | Some message => msg = Unicode message
  | None =>
      exists strs,
        exc_args value = map s_ strs /\
        msg = join_with_space (map decode_ascii_replace strs)
  end.
Proof.
  unfold exception_message. destruct (exc_unicode value) as [message|].
  - by intros [= <-].
  - generalize (exc_args value). intros args.
    destruct (for_each _ args) as [f|parts] eqn:Hparts; simpl; [discriminate|].
    intros [= <-].
    assert (exists strs, args = map s_ strs /\
                         parts = map decode_ascii_replace strs)
      as (strs & -> & ->); [|by exists strs].
    revert parts Hparts. induction args as [|a args IH]; intros parts; simpl.
    + intros [= <-]. by exists [].
    + destruct a as [| | | |[s|cps]| | | | |]; simpl; try discriminate.
      destruct (for_each _ args) as [f|rest]; simpl; [discriminate|].
      intros [= <-]. destruct (IH rest eq_refl) as (strs & -> & ->).
      by exists (s :: strs).
Qed.

(** C2: when a failure raised by the invoked operation becomes a result,
    that result is a FAIL with an empty [return], and its [error] carries
    the class name alone when the failure has no message, the bare message
    when the class is one of the generic ones, and [Class: message] for
    any other class; without control characters in the message these are
    plain texts.  The message is what [unicode(value)] gives when that
    conversion succeeds; when it raises, the message is the arguments of
    the failure, decoded with replacement and joined by single spaces. *)
Theorem error_message_format name args kwargs self exc result self' :
  (invoke name (map _handle_binary_arg args)
     (_handle_binary_arg <$> default ∅ kwargs) (_intercept_stdout self)).1
  = inl exc ->
  run_keyword repr_text name args kwargs self = (inr result, self') ->
  result !! "status" = Some (s_ "FAIL") /\
  result !! "return" = Some (s_ "") /\
  exists msg error,
    exception_message (exc_value exc) = inr msg /\
    match exc_unicode (exc_value exc) with
    | Some message => msg = Unicode message
    | None =>
        exists strs,
          exc_args (exc_value exc) = map s_ strs /\
          msg = join_with_space (map decode_ascii_replace strs)
    end /\
    result !! "error" = Some error /\
    characters error
    = Some (match chars msg with
            | [] => bytes (__name__ (exc_type exc))
            | message =>
                if bool_decide (exc_type exc ∈ _generic_exceptions)
                then message
                else bytes (__name__ (exc_type exc)) ++ u ": " ++ message
            end) /\
    (BINARY_search msg = false ->
     error = match chars msg with
             | [] => s_ (__name__ (exc_type exc))
             | message =>
                 if bool_decide (exc_type exc ∈ _generic_exceptions)
                 then u_ message
                 else u_ (bytes (__name__ (exc_type exc)) ++ u ": " ++ message)
             end).
Proof.
  intros Hcall. rewrite run_keyword_cases.
  destruct (invoke _ _ _ _) as [outcome self1]. simpl in Hcall. subst outcome.
  destruct (bool_decide (exc_type exc ∈ _fatal_exceptions)).
  { by destruct (_restore_stdout self1) as [[f|output] self2]. }
  destruct (_get_error_message _ _ _) as [f|error] eqn:Herror; [discriminate|].
  destruct (_restore_stdout self1) as [[f|output] self2]; [discriminate|].
  intros [= <- <-]. split; [by simplify_map_eq|]. split; [by simplify_map_eq|].
  revert Herror. unfold _get_error_message, _get_message_from_exception.
  destruct (exception_message (exc_value exc)) as [f|msg] eqn:Hmsg;
    simpl; [discriminate|].
  intros Herror. exists msg, error. split; [done|].
  split; [by apply exception_message_inv|].
  split; [by simplify_map_eq|]. revert Herror.
  assert (decoded msg = chars msg) as Hdecoded.
  { by destruct (exception_message_shape _ _ Hmsg) as [[cps ->]| ->]. }
  assert (forall data, str_of_text msg = Some data -> bytes data = chars msg)
    as Hdata.
  { destruct (exception_message_shape _ _ Hmsg) as [[cps ->]| ->]; simpl.
    - apply encode_ascii_bytes.
    - by intros data [= <-]. }
  destruct (_handle_binary_result msg) as [f|encoded] eqn:Hencoded;
    [discriminate|]. simpl.
  apply handle_binary_result_inv in Hencoded
    as [(-> & Hclean & _) | (data & -> & Hstr & Hbinary)]; simpl.
  - rewrite Hdecoded. destruct (chars msg) as [|c message]; simpl.
    { intros [= <-]. by split. }
    destruct (bool_decide (exc_type exc ∈ _generic_exceptions)).
    { intros [= <-]. by split. }
    destruct (decode_ascii _) as [decoded_name|] eqn:Hname; [|discriminate].
    apply decode_ascii_bytes in Hname as ->.
    intros [= <-]. by split.
  - apply Hdata in Hstr. rewrite Hbinary.
    assert (chars msg <> []) as Hnonempty.
    { intros Hempty. unfold BINARY_search in Hbinary.
      by rewrite Hempty in Hbinary. }
    destruct (chars msg) as [|c message] eqn:Hchars; [done|].
    destruct (bool_decide (exc_type exc ∈ _generic_exceptions)).
    { intros [= <-]. simpl. by rewrite Hstr. }
    intros [= <-]. simpl. split; [|done].
    by rewrite !bytes_app, Hstr.
Qed.

Lemma invoke_leaves_capture name args kwargs self outcome self1 :
  invoke name args kwargs (_intercept_stdout self) = (outcome, self1) ->
  sys_stdout self1 = Capture (captured (written name args kwargs self)).
Proof.
  intros H. pose proof (invoke_under_capture name args kwargs self) as Hinv.
  rewrite H in Hinv. by destruct Hinv as [? _].
Qed.

(** C3 (as the code has it): a failure whose class is one of the fatal
    ones never becomes a result, and once the captured output has been
    collected and encoded, console routing is back and the same failure is
    raised again; any other failure is caught, and becomes a FAIL result
    as soon as its error message and the captured output can be encoded. *)
Theorem fatal_reraised_others_converted name args kwargs self exc self1 :
  invoke name (map _handle_binary_arg args)
    (_handle_binary_arg <$> default ∅ kwargs) (_intercept_stdout self)
  = (inl exc, self1) ->
  (exc_type exc ∈ _fatal_exceptions ->
     (forall result self',
        run_keyword repr_text name args kwargs self <> (inr result, self')) /\
     (forall output self2,
        _restore_stdout self1 = (inr output, self2) ->
        sys_stdout self2 = Console /\
        run_keyword repr_text name args kwargs self
        = (inl (Reraised exc), self2))) /\
  (exc_type exc ∉ _fatal_exceptions ->
     forall error output self2,
       _get_error_message repr_text (exc_type exc) (exc_value exc) = inr error ->
       _restore_stdout self1 = (inr output, self2) ->
       sys_stdout self2 = Console /\
       run_keyword repr_text name args kwargs self
       = (inr (fail_result error (_get_error_traceback (exc_tb exc)) output),
          self2)).
Proof.
  intros Hcall. pose proof (invoke_leaves_capture _ _ _ _ _ _ Hcall) as Hout.
  rewrite run_keyword_cases, Hcall. split.
  - intros Hfatal. rewrite bool_decide_eq_true_2 by done. split.
    + intros result self'.
      by destruct (_restore_stdout self1) as [[f|output] self2].
    + intros output self2 Hrestore. rewrite Hrestore. split; [|done].
      by destruct (restore_stdout_inv _ _ _ _ Hout Hrestore) as [-> _].
  - intros Hrecoverable error output self2 Herror Hrestore.
    rewrite bool_decide_eq_false_2 by done. rewrite Herror, Hrestore.
    split; [by destruct (restore_stdout_inv _ _ _ _ Hout Hrestore) as [-> _]|].
    reflexivity.
Qed.

Lemma get_message_wire_safe value message :
  _get_message_from_exception value = inr message -> wire_safe message.
Proof.
  unfold _get_message_from_exception.
  destruct (exception_message value) as [f|msg]; simpl; [discriminate|].
  apply handle_binary_result_wire_safe.
Qed.

Lemma generic_error_wire_safe cls value error :
  cls ∈ _generic_exceptions ->
  _get_error_message repr_text cls value = inr error -> wire_safe error.
Proof.
  intros Hgeneric. unfold _get_error_message.
  destruct (_get_message_from_exception value) as [f|message] eqn:Hmessage;
    simpl; [discriminate|].
  destruct (truthy message); simpl.
  - rewrite bool_decide_eq_true_2 by done. intros [= <-].
    by apply (get_message_wire_safe value).
  - intros [= <-]. unfold _generic_exceptions in Hgeneric.
    set_unfold. by destruct Hgeneric as [->|[->|[->|[]]]].
Qed.

Lemma BINARY_search_app (a b : string) :
  BINARY_search (Str (a +:+ b))
  = BINARY_search (Str a) || BINARY_search (Str b).
Proof.
  unfold BINARY_search. simpl. by rewrite bytes_app, existsb_app.
Qed.

Lemma binary_text_keeps_its_characters_aux (result : text) (data : string) :
  BINARY_search result = true ->
  str_of_text result = Some data ->
  chars (Str data) = chars result /\
  _handle_binary_result result = inr (VBinary data).
Proof.
  intros Hbinary Hdata. split.
  - destruct result as [s|cps]; simpl in *.
    + by injection Hdata as ->.
    + by apply encode_ascii_bytes.
  - unfold _handle_binary_result. by rewrite Hbinary, Hdata.
Qed.

(** When the error is wire-safe: for a generic class always, and for any
    other class exactly when neither the message nor the class name has a
    control character. *)
Lemma error_wire_safe cls value msg error :
  exception_message value = inr msg ->
  _get_error_message repr_text cls value = inr error ->
  wire_safe error <->
  cls ∈ _generic_exceptions \/
  (BINARY_search msg = false /\ BINARY_search (Str (__name__ cls)) = false).
Proof.
  intros Hmsg. unfold _get_error_message, _get_message_from_exception.
  rewrite Hmsg. simpl.
  destruct (_handle_binary_result msg) as [f|message] eqn:Hencoded; simpl;
    [discriminate|].
  assert (cls ∈ _generic_exceptions ->
          BINARY_search (Str (__name__ cls)) = false) as Hnames.
  { unfold _generic_exceptions. set_unfold. by intros [->|[->|[->|[]]]]. }
  apply handle_binary_result_inv in Hencoded
    as [(-> & Hclean & Hstable) | (data & -> & Hstr & Hbinary)].
  - destruct (negb (truthy (u_ (decoded msg)))).
    { intros [= <-]. simpl. split.
      - intros Hname. by right.
      - intros [Hgeneric|[_ Hname]]; [by apply Hnames | done]. }
    destruct (bool_decide (cls ∈ _generic_exceptions)) eqn:Hgeneric.
    { intros [= <-]. apply bool_decide_eq_true_1 in Hgeneric.
      split; [by left | by intros _]. }
    apply bool_decide_eq_false_1 in Hgeneric.
    unfold format_name_message. simpl.
    destruct (decode_ascii (__name__ cls)) as [name|] eqn:Hname; [|discriminate].
    apply decode_ascii_bytes in Hname as ->.
    intros [= <-]. unfold wire_safe, u_, BINARY_search in *. simpl in *.
    rewrite !existsb_app. simpl. rewrite Hstable, orb_false_r. split.
    + intros Hname. by right.
    + by intros [Hother|[_ Hname]].
  - simpl. destruct (bool_decide (cls ∈ _generic_exceptions)) eqn:Hgeneric.
    { intros [= <-]. apply bool_decide_eq_true_1 in Hgeneric.
      split; [by left | done]. }
    apply bool_decide_eq_false_1 in Hgeneric.
    intros [= <-]. split.
    + intros Hsafe. exfalso. unfold wire_safe, s_ in Hsafe.
      destruct (binary_text_keeps_its_characters_aux msg data Hbinary Hstr)
        as [Hchars _].
      assert (BINARY_search (Str data) = true) as Hraw.
      { unfold BINARY_search. rewrite Hchars. exact Hbinary. }
      rewrite !BINARY_search_app, Hraw, !orb_true_r in Hsafe. discriminate.
    + intros [Hother|[Hclean _]]; [done | congruence].
Qed.

(** C1 (as the code has it): in every result, [output] is the wire-safe
    encoding of the captured text.  On PASS, [return] is the encoding of
    the returned value by [_handle_return_value], and [error] and
    [traceback] are the empty string.  On FAIL, [return] is the empty
    string, [error] is what [_get_error_message] builds from the encoded
    message, wire-safe for a generic class, and for any other class
    exactly when neither the message nor the class name has a control
    character; [traceback] is the raw header followed by the formatted
    entries after the first: a [str] that has not been through the
    encoder. *)
Theorem result_fields name args kwargs self result self' :
  run_keyword repr_text name args kwargs self = (inr result, self') ->
  (exists output,
     result !! "output" = Some output /\ wire_safe output /\
     output_of (written name (map _handle_binary_arg args)
                  (_handle_binary_arg <$> default ∅ kwargs) self) output) /\
  match (invoke name (map _handle_binary_arg args)
           (_handle_binary_arg <$> default ∅ kwargs) (_intercept_stdout self)).1
  with
  | inr return_value =>
      result !! "status" = Some (s_ "PASS") /\
      (exists value,
         _handle_return_value repr_text return_value = inr value /\
         result !! "return" = Some value) /\
      result !! "error" = Some (s_ "") /\
      result !! "traceback" = Some (s_ "")
  | inl exc =>
      result !! "status" = Some (s_ "FAIL") /\
      result !! "return" = Some (s_ "") /\
      (exists msg error,
         exception_message (exc_value exc) = inr msg /\
         _get_error_message repr_text (exc_type exc) (exc_value exc) = inr error /\
         result !! "error" = Some error /\
         (wire_safe error <->
          exc_type exc ∈ _generic_exceptions \/
          (BINARY_search msg = false /\
           BINARY_search (Str (__name__ (exc_type exc))) = false))) /\
      result !! "traceback"
      = Some (s_ ("Traceback (most recent call last):" +:+ LF +:+
                  concat_str (format_list (tail (extract_tb (exc_tb exc)))))) /\
      forall text, _handle_binary_result text <> inr (_get_error_traceback (exc_tb exc))
  end.
Proof.
  intros Hrun. split.
  - destruct (run_keyword_output _ _ _ _ _ _ Hrun)
      as [_ (output & Hlookup & text & Hget & Hencoded)].
    exists output. split; [done|].
    split; [by apply (handle_binary_result_wire_safe text)|]. by exists text.
  - revert Hrun. rewrite run_keyword_cases.
    destruct (invoke _ _ _ _) as [[exc|return_value] self1]; simpl.
    + destruct (bool_decide (exc_type exc ∈ _fatal_exceptions)).
      { by destruct (_restore_stdout self1) as [[f|output] self2]. }
      destruct (_get_error_message _ _ _) as [f|error] eqn:Herror; [discriminate|].
      destruct (_restore_stdout self1) as [[f|output] self2]; [discriminate|].
      intros [= <- <-].
      split; [by simplify_map_eq|]. split; [by simplify_map_eq|].
      split; [|split; [by simplify_map_eq|]].
      * destruct (exception_message (exc_value exc)) as [f|msg] eqn:Hmsg.
        { unfold _get_error_message, _get_message_from_exception in Herror.
          by rewrite Hmsg in Herror. }
        exists msg, error. split; [done|]. split; [done|].
        split; [by simplify_map_eq|].
        by apply (error_wire_safe _ (exc_value exc)).
      * intros text. apply handle_binary_result_never_str.
    + destruct (_handle_return_value _ _) as [f|value]; [discriminate|].
      destruct (_restore_stdout self1) as [[f|output] self2]; [discriminate|].
      intros [= <- <-].
      split; [by simplify_map_eq|]. split; [|by simplify_map_eq].
      exists value. by simplify_map_eq.
Qed.

(** *** The keyword registry *)






End Properties.


(** ** The properties on the sample servers *)

Import Samples.

Lemma binary_round_trip_witness :
  _handle_return_value sample_repr (s_ FF) = inr (VBinary FF) /\
  _handle_binary_arg (VBinary FF) = s_ FF /\
  _handle_return_value sample_repr (u_ [1; 228]%N)
  = inl (ValueError_cannot_represent (Unicode [1; 228]%N)).
Proof.
  destruct (binary_round_trip sample_repr (Str FF) eq_refl) as [Hround _].
  destruct (binary_round_trip sample_repr (Unicode [1; 228]%N) eq_refl)
    as [_ Hfail].
  destruct (Hround FF eq_refl) as [Hencode Hdecode].
  exact (conj Hencode (conj Hdecode (Hfail eq_refl))).
Defined.

Lemma boolean_returned_unchanged_witness :
  run_keyword sample_repr "flag" [] None sample
  = (inr (pass_result (VBool true) (u_ [])), set_stdout Console sample) /\
  (pass_result (VBool true) (u_ [])) !! "return" = Some (VBool true).
Proof.
  assert (run_keyword sample_repr "flag" [] None sample
          = (inr (pass_result (VBool true) (u_ [])), set_stdout Console sample))
    as Hrun by computed.
  split; [exact Hrun|].
  destruct (boolean_returned_unchanged sample_repr true) as (_ & _ & Hreturn).
  exact (Hreturn "flag" [] None sample _ _ ltac:(computed) Hrun).
Defined.

Lemma stop_acknowledged_either_way_witness :
  (stop_remote_server sample).1 = VBool true /\
  running (stop_remote_server sample).2 = true /\
  (stop_remote_server stoppable).1 = VBool true /\
  running (stop_remote_server stoppable).2 = false.
Proof.
  destruct (stop_acknowledged_either_way sample)
    as (Hack & _ & _ & _ & Hdenied & _).
  destruct (stop_acknowledged_either_way stoppable)
    as (Hack' & _ & _ & _ & _ & Hallowed).
  destruct (Hdenied eq_refl) as [_ Hrunning].
  destruct (Hallowed eq_refl) as [_ Hstopped].
  exact (conj Hack (conj Hrunning (conj Hack' Hstopped))).
Defined.

Lemma init_documentation_witness :
  get_keyword_documentation "__init__" module_server = Str "" /\
  get_keyword_documentation "__init__" sample = Str "Set up the library.".
Proof.
  destruct (init_documentation module_server) as [Hmodule _].
  destruct (init_documentation sample) as [_ Hobject].
  exact (conj (Hmodule eq_refl) (Hobject eq_refl)).
Defined.

(** C8, as stated, fails on an object whose initializer is documented. *)
Lemma init_documentation_not_always_empty :
  get_keyword_documentation "__init__" sample <> Str "".
Proof.
  assert (get_keyword_documentation "__init__" sample
          = Str "Set up the library.") as -> by computed.
  discriminate.
Qed.

Lemma output_is_what_the_call_wrote_witness :
  run_keyword sample_repr "greet" [] None sample
  = (inr (pass_result (u_ (u "done")) (u_ (u "hello" ++ u LF))),
     set_stdout Console sample) /\
  sys_stdout (set_stdout Console sample) = Console /\
  exists output,
    (pass_result (u_ (u "done")) (u_ (u "hello" ++ u LF))) !! "output"
    = Some output /\
    output_of [Str "hello"; Str LF] output.
Proof.
  assert (run_keyword sample_repr "greet" [] None sample
          = (inr (pass_result (u_ (u "done")) (u_ (u "hello" ++ u LF))),
             set_stdout Console sample)) as Hrun by computed.
  split; [exact Hrun|].
  destruct (output_is_what_the_call_wrote sample_repr "greet" [] None sample
              _ _ Hrun) as (Hrestored & _ & Houtput & _).
  exact (conj Hrestored Houtput).
Defined.

Lemma unknown_keyword_gives_fail_result_witness :
  _get_keyword "no_such_keyword" sample = None /\
  run_keyword sample_repr "no_such_keyword" [] None sample
  = (inr (fail_result (u_ (u "TypeError: 'NoneType' object is not callable"))
            (s_ ("Traceback (most recent call last):" +:+ LF))
            (u_ [])),
     set_stdout Console sample).
Proof.
  assert (_get_keyword "no_such_keyword" sample = None) as Hnone by computed.
  exact (conj Hnone
           (unknown_keyword_gives_fail_result sample_repr "no_such_keyword"
              [] None sample Hnone)).
Defined.

(** C4, as stated, fails: the error for an unknown name neither says
    "not found" nor names the operation. *)
Lemma unknown_keyword_error_does_not_say_so :
  run_keyword sample_repr "no_such_keyword" [] None sample
  = (inr (fail_result (u_ (u "TypeError: 'NoneType' object is not callable"))
            (s_ ("Traceback (most recent call last):" +:+ LF))
            (u_ [])),
     set_stdout Console sample) /\
  states_not_found "no_such_keyword"
    (u_ (u "TypeError: 'NoneType' object is not callable")) = false.
Proof. split; computed. Qed.

Lemma error_message_format_witness :
  (run_keyword sample_repr "boom" [] None sample
   = (inr (fail_result (u_ (u "boom"))
             (traceback_text "7" "boom" "raise RuntimeError('boom')") (u_ [])),
      set_stdout Console sample) /\
   exists error,
     (fail_result (u_ (u "boom"))
        (traceback_text "7" "boom" "raise RuntimeError('boom')") (u_ []))
     !! "error" = Some error /\
     error = u_ (u "boom")) /\
  (run_keyword sample_repr "bad" [] None sample
   = (inr (fail_result (u_ (u "MyError: bad"))
             (traceback_text "10" "bad" "raise MyError('bad')") (u_ [])),
      set_stdout Console sample) /\
   exists error,
     (fail_result (u_ (u "MyError: bad"))
        (traceback_text "10" "bad" "raise MyError('bad')") (u_ []))
     !! "error" = Some error /\
     error = u_ (u "MyError: bad")) /\
  (run_keyword sample_repr "cafe" [] None failing
   = (inr (fail_result (u_ (u "caf" ++ [65533; 65533]%N))
             (traceback_text "22" "cafe" "raise RuntimeError('caf\xc3\xa9')")
             (u_ [])),
      set_stdout Console failing) /\
   exists error,
     (fail_result (u_ (u "caf" ++ [65533; 65533]%N))
        (traceback_text "22" "cafe" "raise RuntimeError('caf\xc3\xa9')")
        (u_ []))
     !! "error" = Some error /\
     error = u_ (u "caf" ++ [65533; 65533]%N)) /\
  (run_keyword sample_repr "split" [] None failing
   = (inr (fail_result
             (u_ (u "SplitError: caf" ++ [65533; 65533]%N ++ u " au lait"))
             (traceback_text "25" "split"
                "raise SplitError('caf\xc3\xa9', 'au lait')")
             (u_ [])),
      set_stdout Console failing) /\
   exists error,
     (fail_result
        (u_ (u "SplitError: caf" ++ [65533; 65533]%N ++ u " au lait"))
        (traceback_text "25" "split"
           "raise SplitError('caf\xc3\xa9', 'au lait')")
        (u_ []))
     !! "error" = Some error /\
     error = u_ (u "SplitError: caf" ++ [65533; 65533]%N ++ u " au lait")).
Proof.
  split; [|split; [|split]].
  - assert (run_keyword sample_repr "boom" [] None sample
            = (inr (fail_result (u_ (u "boom"))
                      (traceback_text "7" "boom" "raise RuntimeError('boom')")
                      (u_ [])),
               set_stdout Console sample)) as Hrun by computed.
    split; [exact Hrun|].
    destruct (error_message_format sample_repr "boom" [] None sample
                (through_run_keyword boom_exc) _ _ ltac:(computed) Hrun)
      as (_ & _ & msg & error & _ & Hunicode & Herror & _ & Hplain).
    change (msg = Unicode (u "boom")) in Hunicode. subst msg.
    exists error. exact (conj Herror (Hplain eq_refl)).
  - assert (run_keyword sample_repr "bad" [] None sample
            = (inr (fail_result (u_ (u "MyError: bad"))
                      (traceback_text "10" "bad" "raise MyError('bad')")
                      (u_ [])),
               set_stdout Console sample)) as Hrun by computed.
    split; [exact Hrun|].
    destruct (error_message_format sample_repr "bad" [] None sample
                (through_run_keyword bad_exc) _ _ ltac:(computed) Hrun)
      as (_ & _ & msg & error & _ & Hunicode & Herror & _ & Hplain).
    change (msg = Unicode (u "bad")) in Hunicode. subst msg.
    exists error. exact (conj Herror (Hplain eq_refl)).
  - assert (run_keyword sample_repr "cafe" [] None failing
            = (inr (fail_result (u_ (u "caf" ++ [65533; 65533]%N))
                      (traceback_text "22" "cafe"
                         "raise RuntimeError('caf\xc3\xa9')")
                      (u_ [])),
               set_stdout Console failing)) as Hrun by computed.
    split; [exact Hrun|].
    destruct (error_message_format sample_repr "cafe" [] None failing
                (through_run_keyword cafe_exc) _ _ ltac:(computed) Hrun)
      as (_ & _ & msg & error & _ & Hfallback & Herror & _ & Hplain).
    change (exists strs,
              [s_ cafe] = map s_ strs /\
              msg = join_with_space (map decode_ascii_replace strs))
      in Hfallback.
    destruct Hfallback as (strs & Hargs & ->).
    destruct strs as [|s [|s' strs]]; try discriminate Hargs.
    injection Hargs as <-.
    exists error. exact (conj Herror (Hplain eq_refl)).
  - assert (run_keyword sample_repr "split" [] None failing
            = (inr (fail_result
                      (u_ (u "SplitError: caf" ++ [65533; 65533]%N
                           ++ u " au lait"))
                      (traceback_text "25" "split"
                         "raise SplitError('caf\xc3\xa9', 'au lait')")
                      (u_ [])),
               set_stdout Console failing)) as Hrun by computed.
    split; [exact Hrun|].
    destruct (error_message_format sample_repr "split" [] None failing
                (through_run_keyword split_exc) _ _ ltac:(computed) Hrun)
      as (_ & _ & msg & error & _ & Hfallback & Herror & _ & Hplain).
    change (exists strs,
              [s_ cafe; s_ "au lait"] = map s_ strs /\
              msg = join_with_space (map decode_ascii_replace strs))
      in Hfallback.
    destruct Hfallback as (strs & Hargs & ->).
    destruct strs as [|s [|s' [|s'' strs]]]; try discriminate Hargs.
    injection Hargs as <- <-.
    exists error. exact (conj Herror (Hplain eq_refl)).
Defined.

Lemma fatal_reraised_others_converted_witness :
  run_keyword sample_repr "leave" [] None sample
  = (inl (Reraised (through_run_keyword leave_exc)), set_stdout Console sample) /\
  run_keyword sample_repr "boom" [] None sample
  = (inr (fail_result (u_ (u "boom"))
            (_get_error_traceback (exc_tb (through_run_keyword boom_exc)))
            (u_ [])),
     set_stdout Console sample).
Proof.
  split.
  - destruct (fatal_reraised_others_converted sample_repr "leave" [] None sample
                (through_run_keyword leave_exc) (_intercept_stdout sample)
                ltac:(computed)) as [Hfatal _].
    destruct (Hfatal (bool_decide_eq_true_1 _ ltac:(computed)))
      as [_ Hreraised].
    exact (proj2 (Hreraised (u_ []) (set_stdout Console sample)
                    ltac:(computed))).
  - destruct (fatal_reraised_others_converted sample_repr "boom" [] None sample
                (through_run_keyword boom_exc) (_intercept_stdout sample)
                ltac:(computed)) as [_ Hrecoverable].
    exact (proj2 (Hrecoverable (bool_decide_eq_false_1 _ ltac:(computed))
                    (u_ (u "boom")) (u_ []) (set_stdout Console sample)
                    ltac:(computed) ltac:(computed))).
Defined.

(** C3, as stated, fails: a failure that is not fatal, with a message that
    has a control character and no [str] form, is caught but does not
    become a FAIL result; the [ValueError] of the encoder leaves
    [run_keyword] instead, with output capture still in place. *)
Lemma recoverable_failure_not_always_converted :
  invoke "garbled" [] ∅ (_intercept_stdout sample)
  = (inl (through_run_keyword garbled_exc), _intercept_stdout sample) /\
  (exc_type (through_run_keyword garbled_exc) ∉ _fatal_exceptions) /\
  run_keyword sample_repr "garbled" [] None sample
  = (inl (ValueError_cannot_represent (Unicode [1; 228]%N)),
     set_stdout (Capture []) sample).
Proof.
  split; [computed|]. split; [|computed].
  exact (bool_decide_eq_false_1 _ ltac:(computed)).
Qed.

Lemma result_fields_witness :
  run_keyword sample_repr "page" [] None sample
  = (inr (fail_result (u_ (u "page break")) page_traceback (u_ [])),
     set_stdout Console sample) /\
  (exists output,
     (fail_result (u_ (u "page break")) page_traceback (u_ [])) !! "output"
     = Some output /\ wire_safe output) /\
  (exists error,
     (fail_result (u_ (u "page break")) page_traceback (u_ [])) !! "error"
     = Some error /\ wire_safe error) /\
  run_keyword sample_repr "bad" [] None sample
  = (inr (fail_result (u_ (u "MyError: bad"))
            (traceback_text "10" "bad" "raise MyError('bad')") (u_ [])),
     set_stdout Console sample) /\
  (exists error,
     (fail_result (u_ (u "MyError: bad"))
        (traceback_text "10" "bad" "raise MyError('bad')") (u_ [])) !! "error"
     = Some error /\ wire_safe error).
Proof.
  assert (run_keyword sample_repr "page" [] None sample
          = (inr (fail_result (u_ (u "page break")) page_traceback (u_ [])),
             set_stdout Console sample)) as Hrun by computed.
  assert (run_keyword sample_repr "bad" [] None sample
          = (inr (fail_result (u_ (u "MyError: bad"))
                    (traceback_text "10" "bad" "raise MyError('bad')") (u_ [])),
             set_stdout Console sample)) as Hbad by computed.
  split; [exact Hrun|].
  destruct (result_fields sample_repr "page" [] None sample _ _ Hrun)
    as [(output & Houtput & Hsafe & _) Hfail].
  assert ((invoke "page" (map _handle_binary_arg [])
             (_handle_binary_arg <$> default ∅ None) (_intercept_stdout sample)).1
          = inl (through_run_keyword page_exc)) as Hcall by computed.
  rewrite Hcall in Hfail.
  destruct Hfail as (_ & _ & (msg & error & _ & _ & Herror & Hgeneric) & _).
  split; [exists output; exact (conj Houtput Hsafe)|].
  split.
  { exists error. split; [exact Herror|].
    apply Hgeneric. left. exact (bool_decide_eq_true_1 _ ltac:(computed)). }
  split; [exact Hbad|].
  destruct (result_fields sample_repr "bad" [] None sample _ _ Hbad)
    as [_ Hother].
  assert ((invoke "bad" (map _handle_binary_arg [])
             (_handle_binary_arg <$> default ∅ None) (_intercept_stdout sample)).1
          = inl (through_run_keyword bad_exc)) as Hcall' by computed.
  rewrite Hcall' in Hother.
  destruct Hother as (_ & _ & (msg' & error' & Hmsg & _ & Herror' & Hclean) & _).
  change (inr (Unicode (u "bad")) = @inr failure text msg') in Hmsg.
  injection Hmsg as <-.
  exists error'. split; [exact Herror'|].
  apply Hclean. right. split; computed.
Defined.

(** C1, as stated, fails for [traceback]: it repeats a source line as it
    is, a form feed included, as raw text that has not been through the
    encoder and is not a blob. *)
Lemma traceback_not_wire_encoded :
  run_keyword sample_repr "page" [] None sample
  = (inr (fail_result (u_ (u "page break")) page_traceback (u_ [])),
     set_stdout Console sample) /\
  (fail_result (u_ (u "page break")) page_traceback (u_ [])) !! "traceback"
  = Some page_traceback /\
  ~ wire_safe page_traceback /\
  forall text, _handle_binary_result text <> inr page_traceback.
Proof.
  split; [computed|]. split; [computed|]. split.
  - unfold wire_safe, page_traceback, traceback_text, s_.
    assert (BINARY_search
              (Str ("Traceback (most recent call last):" +:+ LF +:+
                    "  File " +:+ QUOTE +:+ "keywords.py" +:+ QUOTE +:+
                    ", line " +:+ "19" +:+ ", in " +:+ "page" +:+ LF +:+
                    "    " +:+
                    ("assert False, 'page break'  # " +:+ FF +:+ " new page")
                    +:+ LF)) = true) as -> by computed.
    discriminate.
  - intros text. apply handle_binary_result_never_str.
Qed.



(** ** Further properties *)

Section MoreProperties.

Variable repr_text : pyval -> utext.

(** *** The value codec, beyond the round trip *)

Lemma handle_binary_result_str (s : string) :
  _handle_binary_result (Str s)
  = inr (if BINARY_search (Str s) then VBinary s else u_ (decode_ascii_replace s)).
Proof. unfold _handle_binary_result. by destruct (BINARY_search (Str s)). Qed.

(** X1: the encoder raises only for a text that has a control character
    and no [str] form, which is a [unicode] text with a character above
    0x7F, and then with [ValueError]; a byte string is always encoded. *)
Theorem encoder_fails_only_without_str_form (result : text) (f : failure) :
  (_handle_binary_result result = inl f <->
   BINARY_search result = true /\
   (exists cps, result = Unicode cps /\ forallb is_ascii cps = false) /\
   f = ValueError_cannot_represent result) /\
  (forall s, exists v, _handle_binary_result (Str s) = inr v).
Proof.
  split.
  - unfold _handle_binary_result. destruct (BINARY_search result); simpl.
    + destruct result as [s|cps]; simpl.
      * split; [discriminate|]. by intros (_ & (cps & [=] & _) & _).
      * unfold encode_ascii. destruct (forallb is_ascii cps) eqn:Hascii.
        -- split; [discriminate|]. intros (_ & (cps' & [= <-] & H) & _).
           congruence.
        -- split.
           ++ intros [= <-]. split; [done|]. split; [by exists cps | done].
           ++ by intros (_ & _ & ->).
    + split; [discriminate|]. by intros [[=] _].
  - intros s. rewrite handle_binary_result_str. by eexists.
Qed.

Lemma decode_ascii_replace_ascii (s : string) :
  forallb is_ascii (bytes s) = true -> decode_ascii_replace s = bytes s.
Proof.
  unfold decode_ascii_replace. induction (bytes s) as [|b bs IH]; simpl; [done|].
  intros [Hb Hbs]%andb_prop. by rewrite Hb, IH.
Qed.

(** X2: a text without control characters is returned as [unicode] text
    of the same length, character for character when it is ASCII, and
    encoding that result again returns it unchanged. *)
Theorem plain_text_is_decoded_and_stable (result : text) :
  BINARY_search result = false ->
  _handle_binary_result result = inr (u_ (decoded result)) /\
  length (decoded result) = length (chars result) /\
  (forallb is_ascii (chars result) = true -> decoded result = chars result) /\
  _handle_binary_result (Unicode (decoded result)) = inr (u_ (decoded result)).
Proof.
  intros Hclean. split; [|split; [|split]].
  - unfold _handle_binary_result. by rewrite Hclean.
  - destruct result as [s|cps]; simpl; [|done].
    unfold decode_ascii_replace. by rewrite length_map.
  - destruct result as [s|cps]; simpl; [|done]. apply decode_ascii_replace_ascii.
  - unfold _handle_binary_result.
    assert (BINARY_search (Unicode (decoded result)) = false) as ->; [|done].
    destruct result as [s|cps]; [by apply decode_ascii_replace_clean | done].
Qed.

(** X3: whatever its type, a text with a control character that has a
    [str] form becomes a blob of exactly its characters; the argument
    decoder turns the blob into the byte string of those characters, and
    encoding that byte string gives the same blob again. *)
Theorem binary_text_keeps_its_characters (result : text) (data : string) :
  BINARY_search result = true ->
  str_of_text result = Some data ->
  _handle_binary_result result = inr (VBinary data) /\
  _handle_binary_arg (VBinary data) = s_ data /\
  chars (Str data) = chars result /\
  _handle_binary_result (Str data) = inr (VBinary data).
Proof.
  intros Hbinary Hdata.
  assert (chars (Str data) = chars result) as Hchars.
  { destruct result as [s|cps]; simpl in *.
    - by injection Hdata as ->.
    - by apply encode_ascii_bytes. }
  split; [|split; [done|split; [done|]]].
  - unfold _handle_binary_result. by rewrite Hbinary, Hdata.
  - rewrite handle_binary_result_str. unfold BINARY_search.
    rewrite Hchars. fold (BINARY_search result). by rewrite Hbinary.
Qed.

(** X4: argument decoding keeps the number of positional arguments and
    the names of the named ones, leaves every argument that is not a blob
    as it is, leaves no blob at the top level, and changes nothing when
    applied again. *)
Theorem binary_arguments_decoded_at_top_level
    (args : list pyval) (kwargs : gmap string pyval) :
  length (_handle_binary_args args kwargs).1 = length args /\
  dom (_handle_binary_args args kwargs).2 = dom kwargs /\
  Forall (fun a => is_Binary a = false) (_handle_binary_args args kwargs).1 /\
  (forall k v, (_handle_binary_args args kwargs).2 !! k = Some v ->
               is_Binary v = false) /\
  (forall i a, args !! i = Some a -> is_Binary a = false ->
               (_handle_binary_args args kwargs).1 !! i = Some a) /\
  (forall k v, kwargs !! k = Some v -> is_Binary v = false ->
               (_handle_binary_args args kwargs).2 !! k = Some v) /\
  _handle_binary_args (_handle_binary_args args kwargs).1
    (_handle_binary_args args kwargs).2
  = _handle_binary_args args kwargs.
Proof.
  assert (forall a, is_Binary (_handle_binary_arg a) = false) as Hnone.
  { by intros []. }
  assert (forall a, is_Binary a = false -> _handle_binary_arg a = a) as Hsame.
  { by intros []. }
  unfold _handle_binary_args. simpl.
  split; [by rewrite length_map|]. split; [by rewrite dom_fmap_L|].
  split; [|split; [|split; [|split]]].
  - change (map _handle_binary_arg args) with (_handle_binary_arg <$> args).
    apply Forall_forall. intros a (a' & -> & _)%list_elem_of_fmap. apply Hnone.
  - intros k v. rewrite lookup_fmap.
    destruct (kwargs !! k) as [v'|]; simpl; [|done]. intros [= <-]. apply Hnone.
  - intros i a Ha Hplain.
    change (map _handle_binary_arg args) with (_handle_binary_arg <$> args).
    by rewrite list_lookup_fmap, Ha; simpl; rewrite Hsame.
  - intros k v Hv Hplain. by rewrite lookup_fmap, Hv; simpl; rewrite Hsame.
  - f_equal.
    + rewrite map_map. apply map_ext. intros a. by rewrite Hsame.
    + rewrite <- map_fmap_compose. apply map_fmap_ext.
      intros k v _. simpl. by rewrite Hsame.
Qed.

(** *** The return-value encoder *)

Lemma for_each_Forall2 {A B} (f : A -> attempt B) (l : list A) (out : list B) :
  for_each f l = inr out -> Forall2 (fun x y => f x = inr y) l out.
Proof.
  revert out. induction l as [|x l IH]; intros out; simpl.
  - intros [= <-]. constructor.
  - destruct (f x) as [e|y] eqn:Hx; simpl; [discriminate|].
    destruct (for_each f l) as [e|ys]; simpl; [discriminate|].
    intros [= <-]. constructor; [done|]. by apply IH.
Qed.

Lemma for_each_total {A B} (f : A -> attempt B) (l : list A) :
  Forall (fun x => exists y, f x = inr y) l -> exists out, for_each f l = inr out.
Proof.
  induction 1 as [|x l [y Hy] _ [ys Hys]]; simpl; [by eexists|].
  rewrite Hy. simpl. rewrite Hys. simpl. by eexists.
Qed.

Lemma str_is_text_or_blob (item w : pyval) :
  _str repr_text item = inr w ->
  wire_key w \/ exists data, w = VBinary data.
Proof.
  assert (forall t, _handle_binary_result t = inr w ->
                    wire_key w \/ exists data, w = VBinary data) as Hencoded.
  { intros t H. apply handle_binary_result_inv in H
      as [(-> & _ & H) | (data & -> & _)]; [left | right; by exists data].
    by eexists. }
  destruct item; simpl; try apply Hencoded.
  - intros [= <-]. left. by exists (Str "").
  - destruct (decode_ascii data); simpl; [apply Hencoded | discriminate].
Qed.

Lemma setitem_Forall (Q : pyval * pyval -> Prop) key value d :
  (forall k v, Q (k, v) -> Q (k, value)) ->
  Q (key, value) -> Forall Q d -> Forall Q (setitem key value d).
Proof.
  intros Hvalue Hnew. induction 1 as [|[k v] d Hkv Hd IH]; simpl.
  - by constructor.
  - destruct (same_key k key); constructor; eauto.
Qed.

Lemma dict_update_Forall d pairs d' :
  dict_update d pairs = inr d' ->
  Forall (fun kv => wire_key kv.1 /\ wire_value kv.2) d ->
  Forall (fun kv => (wire_key kv.1 \/ exists data, kv.1 = VBinary data) /\
                    wire_value kv.2) pairs ->
  Forall (fun kv => wire_key kv.1 /\ wire_value kv.2) d'.
Proof.
  intros Hupdate Hd Hpairs. revert d Hd Hupdate.
  induction Hpairs as [|[key value] pairs [Hkey Hvalue] _ IH]; intros d Hd; simpl.
  - by intros [= <-].
  - simpl in *. destruct key; try discriminate.
    apply IH. apply setitem_Forall; [| |done].
    + by intros k v [Hk _].
    + split; [|done]. destruct Hkey as [Hkey|[data [=]]]. done.
Qed.

Lemma wire_value_of_return_value (ret w : pyval) :
  _handle_return_value repr_text ret = inr w -> wire_value w.
Proof.
  assert (forall item v, _str repr_text item = inr v -> wire_value v) as Hstr.
  { intros item v [(t & -> & Ht) | (data & ->)]%str_is_text_or_blob;
      by constructor. }
  assert (forall t v, _handle_binary_result t = inr v -> wire_value v) as Htext.
  { intros t v H. apply handle_binary_result_inv in H
      as [(-> & _ & H) | (data & -> & _)]; by constructor. }
  assert (forall items encoded kind,
            Forall (fun v => forall w, _handle_return_value repr_text v = inr w ->
                                       wire_value w) items ->
            match for_each (_handle_return_value repr_text) items with
            | inr encoded => inr (VList encoded)
            | inl f => if is_TypeError f then _str repr_text kind else inl f
            end = inr encoded -> wire_value encoded) as Hitems.
  { intros items encoded kind IH.
    destruct (for_each _ items) as [f|out] eqn:Hout.
    - destruct (is_TypeError f); [apply Hstr | discriminate].
    - intros [= <-]. constructor. apply for_each_Forall2 in Hout.
      induction Hout as [|x y l out Hxy _ IHout]; [constructor|].
      apply Forall_cons in IH as [Hx Hl]. constructor; eauto. }
  revert w.
  induction ret as [|b|n|bits|t|data|items IH|items IH|items IH|cps]
    using pyval_induction; intros w.
  - exact (Hstr VNone w).
  - intros [= <-]. constructor.
  - intros [= <-]. constructor.
  - intros [= <-]. constructor.
  - exact (Htext t w).
  - exact (Hstr (VBinary data) w).
  - exact (Hitems items w (VList items) IH).
  - exact (Hitems items w (VTuple items) IH).
  - simpl.
    destruct (for_each _ items) as [f|pairs] eqn:Hpairs; simpl; [discriminate|].
    unfold dict. destruct (dict_update [] pairs) as [f|d] eqn:Hd; simpl;
      [discriminate|].
    intros [= <-]. constructor.
    apply (dict_update_Forall _ _ _ Hd); [constructor|].
    apply for_each_Forall2 in Hpairs. clear Hd.
    induction Hpairs as [|[key value] [k v] l out Hxy _ IHout]; [constructor|].
    apply Forall_cons in IH as [[_ Hvalue] Hl]. constructor; [|by apply IHout].
    simpl in *. destruct (_str repr_text key) as [f|k'] eqn:Hk; simpl in Hxy;
      [discriminate|].
    destruct (_handle_return_value repr_text value) as [f|v'] eqn:Hv;
      simpl in Hxy; [discriminate|].
    injection Hxy as <- <-. split; [by apply (str_is_text_or_blob key)|].
    by apply Hvalue.
  - exact (Hstr (VObject cps) w).
Qed.

(** X5: whatever the return-value encoder returns is a wire value: clean
    text, a blob, a number, a list of wire values, or a mapping from clean
    text keys to wire values; in particular never [None], a tuple or a
    bare object. *)
Theorem return_value_is_a_wire_value (ret w : pyval) :
  _handle_return_value repr_text ret = inr w ->
  wire_value w /\
  w <> VNone /\ (forall items, w <> VTuple items) /\ (forall cps, w <> VObject cps).
Proof.
  intros Hw. apply wire_value_of_return_value in Hw.
  split; [done|]. by split; [|split]; intros; intros ->; inversion Hw.
Qed.

Lemma dict_update_text_keys d pairs :
  Forall (fun kv => exists t, kv.1 = VText t) pairs ->
  exists d', dict_update d pairs = inr d'.
Proof.
  intros Hpairs. revert d.
  induction Hpairs as [|[key value] pairs [t Ht] _ IH]; intros d; simpl.
  - by eexists.
  - simpl in Ht. subst key. apply IH.
Qed.

Lemma simple_values_always_encode_aux (ret : pyval) :
  simple_value ret -> exists w, _handle_return_value repr_text ret = inr w.
Proof.
  assert (forall items kind,
            Forall (fun v => simple_value v ->
                             exists w, _handle_return_value repr_text v = inr w)
                   items ->
            Forall simple_value items ->
            exists w,
              match for_each (_handle_return_value repr_text) items with
              | inr encoded => inr (VList encoded)
              | inl f => if is_TypeError f then _str repr_text kind else inl f
              end = inr w) as Hitems.
  { intros items kind IH Hsimple.
    destruct (for_each_total (_handle_return_value repr_text) items) as [out ->].
    - induction IH as [|x l Hx _ IHl]; [constructor|].
      apply Forall_cons in Hsimple as [Hsx Hsl]. constructor; eauto.
    - by eexists. }
  induction ret as [|b|n|bits|t|data|items IH|items IH|items IH|cps]
    using pyval_induction; intros Hsimple.
  - by eexists.
  - by eexists.
  - by eexists.
  - by eexists.
  - inversion Hsimple; subst. simpl. rewrite handle_binary_result_str.
    by eexists.
  - inversion Hsimple.
  - inversion Hsimple; subst. by apply (Hitems items (VList items)).
  - inversion Hsimple; subst. by apply (Hitems items (VTuple items)).
  - inversion Hsimple as [| | | | | | |items' Hkv]; subst.
    change (_handle_return_value repr_text (VDict items))
      with (try! pairs := for_each
                            (fun '(key, value) =>
                               try! k := _str repr_text key in
                               try! v := _handle_return_value repr_text value in
                               inr (k, v)) items in
            dict pairs).
    assert (exists pairs,
              for_each (fun '(key, value) =>
                          try! k := _str repr_text key in
                          try! v := _handle_return_value repr_text value in
                          inr (k, v)) items = inr pairs /\
              Forall (fun kv => exists t, kv.1 = VText t) pairs)
      as (pairs & -> & Hkeys).
    { clear Hsimple. induction IH as [|[key value] l [_ Hvalue] _ IHl].
      - eexists. split; [done | constructor].
      - apply Forall_cons in Hkv as [[Hkey Hsv] Hl].
        destruct (IHl Hl) as (rest & Hrest & Hshape).
        simpl in Hvalue, Hkey, Hsv.
        destruct (Hvalue Hsv) as [v Hv].
        assert (exists t, _str repr_text key = inr (VText t)) as [t Ht].
        { destruct Hkey as [->|[[b ->]|(t & -> & Hclean)]]; simpl.
          - by eexists.
          - destruct b; by eexists.
          - unfold _handle_binary_result. rewrite Hclean. by eexists. }
        simpl. rewrite Ht. simpl. rewrite Hv. simpl. rewrite Hrest. simpl.
        eexists. split; [done|]. constructor; [by exists t | done]. }
    simpl. unfold dict.
    destruct (dict_update_text_keys [] pairs Hkeys) as [d ->]. by eexists.
  - inversion Hsimple.
Qed.

(** X6: the return-value encoder never raises for a value made of
    [None], numbers, byte strings, lists and tuples, and mappings of such
    values whose keys are [None], booleans or clean text; what it returns
    is a wire value. *)
Theorem simple_values_always_encode (ret : pyval) :
  simple_value ret ->
  exists w, _handle_return_value repr_text ret = inr w /\ wire_value w.
Proof.
  intros Hsimple. destruct (simple_values_always_encode_aux ret Hsimple) as [w Hw].
  exists w. split; [done|]. by apply (wire_value_of_return_value ret).
Qed.

(** X7: a mapping cannot be returned when one of its keys is encoded as a
    blob: once all keys and values have been encoded, building the
    resulting mapping raises [TypeError], because a blob cannot be
    hashed. *)
Theorem mapping_with_binary_key_is_refused
    (items : list (pyval * pyval)) (key value : pyval) (data : string) :
  (key, value) ∈ items ->
  _str repr_text key = inr (VBinary data) ->
  (forall k v, (k, v) ∈ items ->
     exists k' v', _str repr_text k = inr k' /\
                   _handle_return_value repr_text v = inr v') ->
  exists data', _handle_return_value repr_text (VDict items)
                = inl (TypeError_unhashable (VBinary data')).
Proof.
  intros Hin Hkey Hall. simpl.
  assert (exists pairs,
            for_each (fun '(key, value) =>
                        try! k := _str repr_text key in
                        try! v := _handle_return_value repr_text value in
                        inr (k, v)) items = inr pairs /\
            Exists (fun kv => exists data, kv.1 = VBinary data) pairs /\
            Forall (fun kv => wire_key kv.1 \/ exists data, kv.1 = VBinary data)
                   pairs) as (pairs & -> & Hexists & Hshape).
  { assert (Exists (fun kv => exists data, _str repr_text kv.1 = inr (VBinary data))
                   items) as Hex.
    { apply Exists_exists. exists (key, value). split; [done|]. by exists data. }
    clear value Hkey Hin. revert Hall.
    induction items as [|[k v] items IH]; intros Hall.
    - by apply Exists_nil in Hex.
    - simpl. destruct (Hall k v) as (k' & v' & Hk & Hv); [by left|].
      rewrite Hk, Hv. simpl.
      assert (wire_key k' \/ exists data, k' = VBinary data) as Hk'
        by by apply (str_is_text_or_blob k).
      apply Exists_cons in Hex as [[d Hd]|Hex].
      + simpl in Hd. rewrite Hk in Hd. injection Hd as ->.
        assert (exists rest,
                  for_each (fun '(key, value) =>
                              try! k := _str repr_text key in
                              try! v := _handle_return_value repr_text value in
                              inr (k, v)) items = inr rest /\
                  Forall (fun kv => wire_key kv.1 \/
                                    exists data, kv.1 = VBinary data) rest)
          as (rest & -> & Hrest).
        { assert (forall k v, (k, v) ∈ items ->
                    exists k' v', _str repr_text k = inr k' /\
                                  _handle_return_value repr_text v = inr v')
            as Hall' by (intros; apply Hall; by right).
          clear -Hall'. induction items as [|[k v] items IH].
          - eexists. split; [done | constructor].
          - destruct (Hall' k v) as (k' & v' & Hk & Hv); [by left|].
            destruct IH as (rest & Hrest & Hshape);
              [intros; apply Hall'; by right|].
            simpl. rewrite Hk, Hv. simpl. rewrite Hrest. simpl.
            eexists. split; [done|]. constructor; [|done].
            by apply (str_is_text_or_blob k). }
        simpl. eexists. split; [done|]. split.
        * apply Exists_cons_hd. by exists d.
        * by constructor.
      + destruct (IH Hex) as (rest & -> & Hrest & Hshape);
          [intros; apply Hall; by right|].
        simpl. eexists. split; [done|]. split.
        * by apply Exists_cons_tl.
        * by constructor. }
  simpl. unfold dict.
  assert (forall d, exists data',
            dict_update d pairs = inl (TypeError_unhashable (VBinary data')))
    as Hfail.
  { clear -Hexists Hshape.
    induction Hshape as [|[k v] pairs Hk _ IH]; intros d.
    - by apply Exists_nil in Hexists.
    - simpl in Hk. destruct Hk as [(t & -> & _)|[data' ->]]; simpl.
      + apply Exists_cons in Hexists as [[d' [=]]|Hexists]. by apply IH.
      + by exists data'. }
  destruct (Hfail []) as [data' ->]. by exists data'.
Qed.

(** *** Invocation, beyond the result record *)

Lemma StringIO_write_str s buflist :
  is_str s = true -> forallb is_str buflist = true ->
  forallb is_str (StringIO_write s buflist) = true.
Proof.
  intros Hs Hb. unfold StringIO_write. destruct (is_empty s); [done|].
  rewrite forallb_app. simpl. by rewrite Hb, Hs.
Qed.

Lemma captured_str pieces :
  Forall (fun s => is_str s = true) pieces ->
  forallb is_str (captured pieces) = true.
Proof.
  unfold captured. generalize (eq_refl : forallb is_str [] = true).
  generalize (@nil text) as buflist. intros buflist Hb Hpieces. revert buflist Hb.
  induction Hpieces as [|s pieces Hs _ IH]; intros buflist Hb; simpl; [done|].
  apply IH. by apply StringIO_write_str.
Qed.

Lemma getvalue_str buflist :
  forallb is_str buflist = true -> exists s, getvalue buflist = Some (Str s).
Proof.
  intros Hb. destruct buflist as [|piece buflist]; [by eexists|].
  unfold getvalue, join. rewrite Hb. by eexists.
Qed.

(** Restoring after writes of byte strings only cannot fail. *)
Lemma restore_stdout_str self pieces :
  sys_stdout self = Capture (captured pieces) ->
  Forall (fun s => is_str s = true) pieces ->
  exists output,
    _restore_stdout self = (inr output, set_stdout Console self) /\
    output_of pieces output.
Proof.
  intros Hout Hpieces. unfold _restore_stdout. rewrite Hout.
  destruct (getvalue_str _ (captured_str _ Hpieces)) as [s Hs]. rewrite Hs.
  rewrite handle_binary_result_str. eexists. split; [done|].
  exists (Str s). split; [done|]. apply handle_binary_result_str.
Qed.

Lemma set_stdout_twice out out' self :
  set_stdout out (set_stdout out' self) = set_stdout out self.
Proof. done. Qed.


(** X9: when the return value or the error message cannot be encoded,
    the failure leaves [run_keyword] with output capture still in place:
    [sys.stdout] remains the buffer of that call, and a line logged
    afterwards does not reach the console. *)
Theorem capture_stays_when_encoding_fails
    name args kwargs self outcome self1 f :
  invoke name (map _handle_binary_arg args)
    (_handle_binary_arg <$> default ∅ kwargs) (_intercept_stdout self)
  = (outcome, self1) ->
  match outcome with
  | inr return_value => _handle_return_value repr_text return_value = inl f
  | inl exc =>
      (exc_type exc ∉ _fatal_exceptions) /\
      _get_error_message repr_text (exc_type exc) (exc_value exc) = inl f
  end ->
  run_keyword repr_text name args kwargs self = (inl f, self1) /\
  sys_stdout self1
  = Capture (captured (written name (map _handle_binary_arg args)
                         (_handle_binary_arg <$> default ∅ kwargs) self)) /\
  forall msg level, console (_log msg level self1) = console self1.
Proof.
  intros Hcall Hfails.
  pose proof (invoke_leaves_capture _ _ _ _ _ _ Hcall) as Hout.
  split; [|split; [done|]].
  - rewrite run_keyword_cases, Hcall. destruct outcome as [exc|return_value].
    + destruct Hfails as [Hclass Hmessage].
      by rewrite bool_decide_eq_false_2, Hmessage.
    + by rewrite Hfails.
  - intros msg level. unfold _log, write. by rewrite Hout.
Qed.

Lemma restore_stdout_state self :
  (_restore_stdout self).2 = self \/
  (_restore_stdout self).2 = set_stdout Console self.
Proof.
  unfold _restore_stdout. destruct (sys_stdout self) as [|buflist]; [by left|].
  destruct (getvalue buflist); [by right | by left].
Qed.

Lemma run_keyword_state name args kwargs self :
  let self1 := (invoke name (map _handle_binary_arg args)
                  (_handle_binary_arg <$> default ∅ kwargs)
                  (_intercept_stdout self)).2 in
  (run_keyword repr_text name args kwargs self).2 = self1 \/
  (run_keyword repr_text name args kwargs self).2 = set_stdout Console self1.
Proof.
  rewrite run_keyword_cases.
  destruct (invoke _ _ _ _) as [outcome self1]. simpl.
  pose proof (restore_stdout_state self1) as Hrestore.
  destruct outcome as [exc|return_value].
  - destruct (bool_decide _).
    + by destruct (_restore_stdout self1) as [[f|output] self2].
    + destruct (_get_error_message _ _ _); [by left|].
      by destruct (_restore_stdout self1) as [[f|output] self2].
  - destruct (_handle_return_value _ _); [by left|].
    by destruct (_restore_stdout self1) as [[f|output] self2].
Qed.

Lemma invoke_shutdown name args kwargs self :
  (name <> "stop_remote_server" ->
   _shutdown (invoke name args kwargs self).2 = _shutdown self) /\
  (_shutdown self = true -> _shutdown (invoke name args kwargs self).2 = true).
Proof.
  assert (forall pieces s, _shutdown (write_all pieces s) = _shutdown s) as Hwrite.
  { induction pieces as [|piece pieces IH]; intros s; [done|].
    change (write_all (piece :: pieces) s) with (write_all pieces (write piece s)).
    rewrite IH. unfold write. by destruct (sys_stdout s). }
  unfold invoke, _get_keyword. case_bool_decide as Hname.
  - split; [done|]. intros Hstopped.
    destruct (stop_arity_error args kwargs); [done|].
    unfold stop_remote_server, _log, write. simpl.
    destruct (_allow_stop self), (sys_stdout self); simpl; by rewrite ?Hstopped.
  - destruct (getattr (_library self) name) as [[kw|v]|]; [|done..].
    destruct (call kw args kwargs) as [pieces outcome]. simpl.
    by rewrite Hwrite.
Qed.

(** X10: whatever its outcome, [run_keyword] leaves the library, the stop
    permission, the address and the real console as they are; the
    shutdown flag is never cleared, and it changes only when the reserved
    name is invoked. *)
Theorem run_keyword_keeps_the_server name args kwargs self :
  _library (run_keyword repr_text name args kwargs self).2 = _library self /\
  _allow_stop (run_keyword repr_text name args kwargs self).2 = _allow_stop self /\
  server_address (run_keyword repr_text name args kwargs self).2
  = server_address self /\
  console (run_keyword repr_text name args kwargs self).2 = console self /\
  (name <> "stop_remote_server" ->
   _shutdown (run_keyword repr_text name args kwargs self).2 = _shutdown self) /\
  (_shutdown self = true ->
   _shutdown (run_keyword repr_text name args kwargs self).2 = true).
Proof.
  pose proof (invoke_under_capture name (map _handle_binary_arg args)
                (_handle_binary_arg <$> default ∅ kwargs) self)
    as (_ & Hcon & Hlib & Hallow & Haddr).
  pose proof (invoke_shutdown name (map _handle_binary_arg args)
                (_handle_binary_arg <$> default ∅ kwargs) (_intercept_stdout self))
    as [Hother Hstopped].
  destruct (run_keyword_state name args kwargs self) as [-> | ->]; simpl;
    by repeat split.
Qed.

(** X11: the reserved name can be invoked like a keyword.  Called with no
    arguments it always gives a PASS result with [True] as [return]; the
    line that [stop_remote_server] logs goes into [output] instead of the
    console, and the shutdown flag is set exactly when stopping is
    allowed. *)
Theorem stop_through_run_keyword self :
  exists output line,
    run_keyword repr_text "stop_remote_server" [] None self
    = (inr (pass_result (VBool true) output),
       set_stdout Console
         (if _allow_stop self then set_shutdown true self else self)) /\
    written "stop_remote_server" [] ∅ self = [Str line] /\
    output_of [Str line] output.
Proof.
  set (self1 := (stop_remote_server (_intercept_stdout self)).2).
  assert (invoke "stop_remote_server" [] ∅ (_intercept_stdout self)
          = (inr (VBool true), self1)) as Hinvoke.
  { unfold invoke, _get_keyword. rewrite bool_decide_eq_true_2 by done.
    unfold stop_arity_error. by rewrite map_to_list_empty. }
  assert (exists line, written "stop_remote_server" [] ∅ self = [Str line])
    as [line Hline].
  { unfold written, _get_keyword. rewrite bool_decide_eq_true_2 by done.
    unfold stop_arity_error. rewrite map_to_list_empty.
    unfold stop_remote_server, _log, write. simpl.
    destruct (_allow_stop self); by eexists. }
  pose proof (invoke_under_capture "stop_remote_server" [] ∅ self)
    as (Hout & _).
  rewrite Hinvoke, Hline in Hout.
  change (sys_stdout self1 = Capture (captured [Str line])) in Hout.
  destruct (restore_stdout_str self1 [Str line] Hout)
    as (output & Hrestore & Houtput).
  { by constructor. }
  exists output, line. split; [|done].
  rewrite run_keyword_cases.
  change (map _handle_binary_arg []) with (@nil pyval).
  replace (_handle_binary_arg <$> default ∅ None) with (∅ : gmap string pyval)
    by (symmetry; apply fmap_empty).
  rewrite Hinvoke.
  change (_handle_return_value repr_text (VBool true))
    with (@inr failure pyval (VBool true)).
  cbv beta iota. rewrite Hrestore. f_equal.
  unfold self1, stop_remote_server, _log, write. simpl.
  by destruct (_allow_stop self).
Qed.

(** *** The keyword registry and the resolver *)

Lemma public_name c : negb (c =? "_")%char = true <-> c <> "_"%char.
Proof.
  rewrite negb_true_iff. split.
  - intros H ->. by rewrite Ascii.eqb_refl in H.
  - intros H. by apply Ascii.eqb_neq.
Qed.

Lemma public_routines_elem lib attrs names :
  public_routines lib attrs = inr names ->
  forall v, v ∈ names <->
            exists c rest, v = s_ (String c rest) /\ String c rest ∈ attrs /\
                           c <> "_"%char /\
                           isroutine (getattr lib (String c rest)) = true.
Proof.
  revert names. induction attrs as [|attr attrs IH]; intros names; simpl.
  - intros [= <-] v. split; [by intros ?%elem_of_nil|].
    by intros (c & rest & _ & ?%elem_of_nil & _).
  - destruct attr as [|c attr]; [discriminate|].
    destruct (c =? "_")%char eqn:Hc.
    { intros Hnames v. rewrite (IH names Hnames). split.
      - intros (c' & rest & -> & Hin & Hrest).
        exists c', rest. split; [done|]. split; [by right | done].
      - intros (c' & rest & -> & [Heq|Hin]%elem_of_cons & Hc' & Hroutine).
        + injection Heq as -> ->. apply public_name in Hc'.
          by rewrite Hc in Hc'.
        + by exists c', rest. }
    assert (c <> "_"%char) as Hpublic by (apply public_name; by rewrite Hc).
    destruct (getattr lib (String c attr)) as [a|] eqn:Hattr; [|discriminate].
    destruct (public_routines lib attrs) as [f|others]; simpl; [discriminate|].
    specialize (IH others eq_refl).
    destruct a as [r|d]; simpl; intros [= <-] v.
    + rewrite elem_of_cons, IH. split.
      * intros [->|(c' & rest & -> & Hin & Hrest)].
        -- exists c, attr. split; [done|]. split; [by left|].
           by rewrite Hattr.
        -- exists c', rest. split; [done|]. split; [by right | done].
      * intros (c' & rest & -> & [Heq|Hin]%elem_of_cons & Hrest).
        -- left. by rewrite Heq.
        -- right. by exists c', rest.
    + rewrite IH. split.
      * intros (c' & rest & -> & Hin & Hrest).
        exists c', rest. split; [done|]. split; [by right | done].
      * intros (c' & rest & -> & [Heq|Hin]%elem_of_cons & Hc' & Hkept).
        -- injection Heq as -> ->. by rewrite Hattr in Hkept.
        -- by exists c', rest.
Qed.





(** X13: every name the server lists from the routines of the backing
    object resolves to a keyword, and so does the reserved name, which
    always resolves to the server's own stop method; the underscore filter
    is for listing only, a routine whose name starts with an underscore
    resolves too. *)
Theorem listed_names_resolve self own :
  public_routines (_library self) (dir (_library self)) = inr own ->
  (forall v, v ∈ own ++ [s_ "stop_remote_server"] ->
     exists name, v = s_ name /\ _get_keyword name self <> None) /\
  _get_keyword "stop_remote_server" self = Some OwnStop /\
  (forall name kw,
     getattr (_library self) name = Some (Routine kw) ->
     name <> "stop_remote_server" ->
     _get_keyword name self = Some (LibraryKeyword kw)).
Proof.
  intros Hown. split; [|split; [done|]].
  - intros v [Hv|Hv%list_elem_of_singleton]%elem_of_app.
    + apply (public_routines_elem _ _ _ Hown) in Hv
        as (c & rest & -> & _ & _ & Hroutine).
      eexists. split; [done|]. unfold _get_keyword.
      destruct (bool_decide _); [done|].
      by destruct (getattr _ _) as [[kw|v]|].
    + subst v. by eexists.
  - intros name kw Hattr Hname. unfold _get_keyword.
    by rewrite bool_decide_eq_false_2, Hattr.
Qed.

(** X14: which lister is used.  A routine named [get_keyword_names] is
    called whatever else the object has; a routine named
    [getKeywordNames] is called when [get_keyword_names] is absent or
    false; the list it returns gets the reserved name appended and what it
    writes reaches [sys.stdout].  A lister that raises, or returns
    something that is not a list, makes [get_keyword_names] raise. *)
Theorem lister_of_the_backing_object self lister pieces outcome :
  (getattr (_library self) "get_keyword_names" = Some (Routine lister) \/
   (match getattr (_library self) "get_keyword_names" with
    | None => True
    | Some (Data v) => truthy v = false
    | Some (Routine _) => False
    end /\
    getattr (_library self) "getKeywordNames" = Some (Routine lister))) ->
  call lister [] ∅ = (pieces, outcome) ->
  get_keyword_names self
  = (match outcome with
     | inl exc => inl (RaisedByLibrary exc)
     | inr (VList names) => inr (VList (names ++ [s_ "stop_remote_server"]))
     | inr other => inl (TypeError_concatenate other)
     end, write_all pieces self).
Proof.
  intros Hlister Hcall. unfold get_keyword_names, bind.
  assert (attr_or (getattr (_library self) "get_keyword_names")
                  (getattr (_library self) "getKeywordNames")
          = Some (Routine lister)) as ->.
  { destruct Hlister as [->|[Hfirst ->]]; [done|].
    destruct (getattr _ _) as [[r|v]|]; simpl; [done| |done].
    by rewrite Hfirst. }
  unfold call_library. rewrite Hcall.
  destruct outcome as [exc|[]]; done.
Qed.

(** X15: documentation lookup never raises and gives the empty string
    for the reserved name, whatever the backing object documents under
    that name, and for every name that is not a routine of the backing
    object, special names apart; the documentation of a routine is
    returned as [inspect.getdoc] gives it. *)
Theorem documentation_of_other_names self name :
  get_keyword_documentation "stop_remote_server" self = Str "" /\
  (name <> "__intro__" ->
   isroutine (getattr (_library self) name) = false ->
   get_keyword_documentation name self = Str "") /\
  (forall kw doc,
     name <> "__intro__" -> name <> "__init__" -> name <> "stop_remote_server" ->
     getattr (_library self) name = Some (Routine kw) ->
     getdoc kw = Some doc -> is_empty doc = false ->
     get_keyword_documentation name self = doc).
Proof.
  split; [|split].
  - unfold get_keyword_documentation, _get_keyword.
    by rewrite !bool_decide_eq_false_2 by discriminate.
  - intros Hintro Hroutine. unfold get_keyword_documentation, _get_keyword.
    rewrite (bool_decide_eq_false_2 (name = "__intro__")) by done.
    destruct (bool_decide (name = "__init__") && _); [done|].
    destruct (bool_decide (name = "stop_remote_server")); [done|].
    by destruct (getattr _ _) as [[kw|v]|].
  - intros kw doc Hintro Hinit Hstop Hattr Hdoc Hnonempty.
    unfold get_keyword_documentation, _get_keyword.
    rewrite !bool_decide_eq_false_2 by done. simpl.
    by rewrite Hattr, Hdoc; simpl; rewrite Hnonempty.
Qed.

(** *** Error messages *)

(** X16: building the message raises only on the fallback path, when
    [unicode(value)] has raised and one of [value.args] is not a byte
    string, and then with the [TypeError] for the first such argument,
    which leaves [_get_error_message] too; with byte strings only, the
    fallback gives them decoded with replacement and joined by single
    spaces. *)
Theorem message_fallback value :
  (forall f,
     exception_message value = inl f <->
     exc_unicode value = None /\
     exists strs a rest,
       exc_args value = map s_ strs ++ a :: rest /\
       (forall s, a <> s_ s) /\
       f = TypeError_coercing_to_unicode a) /\
  (forall strs,
     exc_unicode value = None -> exc_args value = map s_ strs ->
     exception_message value
     = inr (join_with_space (map decode_ascii_replace strs))) /\
  (forall f cls,
     exception_message value = inl f ->
     _get_error_message repr_text cls value = inl f).
Proof.
  set (decode := fun a => match a with
                          | VText (Str a) => inr (decode_ascii_replace a)
                          | _ => inl (TypeError_coercing_to_unicode a)
                          end).
  assert (forall strs, for_each decode (map s_ strs)
                       = inr (map decode_ascii_replace strs)) as Hstrs.
  { induction strs as [|s strs IH]; simpl; [done|]. by rewrite IH. }
  assert (forall args f,
            for_each decode args = inl f <->
            exists strs a rest,
              args = map s_ strs ++ a :: rest /\ (forall s, a <> s_ s) /\
              f = TypeError_coercing_to_unicode a) as Hfirst.
  { induction args as [|a args IH]; intros f; simpl.
    - split; [discriminate|]. by intros ([|??] & ? & ? & ? & _).
    - destruct (decode a) as [e|cps] eqn:Ha; simpl.
      + assert (e = TypeError_coercing_to_unicode a /\ forall s, a <> s_ s)
          as [-> Hnot].
        { unfold decode in Ha. destruct a as [| | | |[s|cps]| | | | |];
            try discriminate; injection Ha as <-; by split. }
        split.
        * intros [= <-]. by exists [], a, args.
        * intros ([|s strs] & a' & rest & Hargs & Ha' & ->); simpl in Hargs.
          -- by injection Hargs as <- _.
          -- injection Hargs as -> _. by destruct (Hnot s).
      + assert (exists s, a = s_ s) as [s ->].
        { unfold decode in Ha. destruct a as [| | | |[s|cps']| | | | |];
            try discriminate. by exists s. }
        destruct (for_each decode args) as [e|parts]; simpl.
        * split.
          -- intros [= <-].
             destruct (proj1 (IH e) eq_refl) as (strs & a & rest & -> & Ha' & ->).
             by exists (s :: strs), a, rest.
          -- intros ([|s' strs] & a & rest & Heq & Ha' & ->); simpl in Heq.
             ++ injection Heq as <- _. by destruct (Ha' s).
             ++ injection Heq as _ ->. apply IH. by exists strs, a, rest.
        * split; [discriminate|].
          intros ([|s' strs] & a & rest & Heq & Ha' & ->); simpl in Heq.
          -- injection Heq as <- _. by destruct (Ha' s).
          -- injection Heq as _ ->.
             assert (@inr failure _ parts = inl (TypeError_coercing_to_unicode a))
               as Hfail by (apply IH; by exists strs, a, rest).
             discriminate. }
  assert (exception_message value
          = match exc_unicode value with
            | Some msg => inr (Unicode msg)
            | None => try! parts := for_each decode (exc_args value) in
                      inr (join_with_space parts)
            end) as Hunfold by reflexivity.
  split; [|split].
  - intros f. rewrite Hunfold.
    destruct (exc_unicode value) as [msg|].
    + split; [discriminate|]. by intros [[=] _].
    + destruct (for_each decode (exc_args value)) as [e|parts] eqn:Hargs; simpl.
      * split.
        -- intros [= <-]. split; [done|]. exact (proj1 (Hfirst _ _) Hargs).
        -- intros [_ H]. apply (proj2 (Hfirst _ _)) in H. congruence.
      * split; [discriminate|].
        intros [_ H]. apply (proj2 (Hfirst _ _)) in H. congruence.
  - intros strs Hunicode Hargs.
    by rewrite Hunfold, Hunicode, Hargs, Hstrs.
  - intros f cls Hf. unfold _get_error_message, _get_message_from_exception.
    by rewrite Hf.
Qed.

(** X17: a message with a control character is a blob only as long as it
    stands alone: for a generic class the error is the blob, for any other
    class the class name is put in front of the blob's data, and the error
    is a raw byte string that still holds the control character. *)
Theorem binary_message_under_a_class_name cls value msg data :
  exception_message value = inr msg ->
  BINARY_search msg = true ->
  str_of_text msg = Some data ->
  (cls ∈ _generic_exceptions ->
     _get_error_message repr_text cls value = inr (VBinary data)) /\
  (cls ∉ _generic_exceptions ->
     _get_error_message repr_text cls value
     = inr (s_ (__name__ cls +:+ ": " +:+ data)) /\
     ~ wire_safe (s_ (__name__ cls +:+ ": " +:+ data))).
Proof.
  intros Hmsg Hbinary Hdata.
  assert (_get_message_from_exception value = inr (VBinary data)) as Hmessage.
  { unfold _get_message_from_exception. rewrite Hmsg. simpl.
    unfold _handle_binary_result. by rewrite Hbinary, Hdata. }
  assert (BINARY_search (Str data) = true) as Hraw.
  { destruct (binary_text_keeps_its_characters_aux msg data Hbinary Hdata)
      as [Hchars _].
    unfold BINARY_search. rewrite Hchars. exact Hbinary. }
  unfold _get_error_message. rewrite Hmessage. simpl. split.
  - intros Hgeneric. by rewrite bool_decide_eq_true_2.
  - intros Hother. rewrite bool_decide_eq_false_2 by done. split; [done|].
    unfold wire_safe, s_. rewrite !BINARY_search_app, Hraw.
    rewrite !orb_true_r. discriminate.
Qed.

(** *** The lifecycle *)

Lemma stop_acknowledged_flags self :
  (_allow_stop self = false ->
   _shutdown (stop_remote_server self).2 = _shutdown self) /\
  (_allow_stop self = true -> _shutdown (stop_remote_server self).2 = true).
Proof.
  unfold stop_remote_server, _log, write.
  destruct (_allow_stop self), (sys_stdout self); by split.
Qed.

Lemma serve_forever_stopped requests self :
  _shutdown self = true -> serve_forever requests self = self.
Proof. intros H. destruct requests; simpl; [done|]. by rewrite H. Qed.


(** X19: the request loop.  Once the shutdown flag is set no request is
    handled; serving a sequence of requests is serving its first part and
    then the rest from where that ended; and a stop request ends the loop
    exactly when stopping is allowed: the requests after it are handled
    when it is not, and ignored when it is. *)
Theorem serve_forever_until_stopped requests rest self :
  (_shutdown self = true -> serve_forever requests self = self) /\
  serve_forever (requests ++ rest) self
  = serve_forever rest (serve_forever requests self) /\
  (_shutdown self = false ->
   serve_forever ((fun self => (stop_remote_server self).2) :: rest) self
   = if _allow_stop self
     then (stop_remote_server self).2
     else serve_forever rest (stop_remote_server self).2).
Proof.
  split; [apply serve_forever_stopped|]. split.
  - revert self. induction requests as [|request requests IH]; intros self;
      simpl; [done|].
    destruct (_shutdown self) eqn:Hstopped; [|apply IH].
    by rewrite serve_forever_stopped.
  - intros Hrunning. cbn [serve_forever]. rewrite Hrunning.
    destruct (_allow_stop self) eqn:Hallow; [|done].
    apply serve_forever_stopped. by apply stop_acknowledged_flags.
Qed.

End MoreProperties.

(** *** Argument introspection *)

Section IntrospectionProperties.

Variable getargspec : routine -> option ArgSpec.
Variable ismethod : routine -> bool.
Variable str_text : pyval -> string.

(** X20: asking for the arguments of a name that resolves to nothing
    gives the empty list, not an error, without looking at any signature;
    the reserved name has no arguments either, its [self] being
    dropped. *)
Theorem arguments_of_unknown_and_reserved_names name self :
  (_get_keyword name self = None ->
   get_keyword_arguments getargspec ismethod str_text name self = inr []) /\
  get_keyword_arguments getargspec ismethod str_text "stop_remote_server" self
  = inr [].
Proof.
  split.
  - intros Hnone. unfold get_keyword_arguments. by rewrite Hnone.
  - unfold get_keyword_arguments, _get_keyword.
    by rewrite bool_decide_eq_true_2.
Qed.

Lemma format_defaults_length pairs formatted :
  format_defaults str_text pairs = inr formatted ->
  length formatted = length pairs.
Proof.
  revert formatted. induction pairs as [|[n d] pairs IH]; intros formatted; simpl.
  - by intros [= <-].
  - destruct (format_default str_text n d) as [f|item]; [discriminate|].
    destruct (format_defaults str_text pairs) as [f|items]; [discriminate|].
    intros [= <-]. simpl. by rewrite (IH items).
Qed.

Lemma append_marker_length stars collector args :
  length (append_marker stars collector args)
  = length args + has_collector collector.
Proof.
  unfold append_marker, has_collector.
  destruct collector as [[|c collector]|]; rewrite ?length_app; simpl; lia.
Qed.

(** X21: the argument list of a routine.  With [args] the parameters
    (without [self] for a method) and [defaults] the default values, the
    list is the names of the first [len(args) - len(defaults)] parameters
    as they are, then one [name=default] entry for each of the remaining
    ones, then the [*varargs] and [**kwargs] markers when present: as
    many entries as parameters and markers.  No defaults and an empty
    tuple of defaults are the same, and more defaults than parameters
    leave no bare name. *)
Theorem argument_list_shape kw spec out :
  getargspec kw = Some spec ->
  _arguments_from_kw getargspec ismethod str_text (LibraryKeyword kw) = inr out ->
  let args := if ismethod kw then tail (spec_args spec) else spec_args spec in
  let defaults := default [] (spec_defaults spec) in
  let required := length args - length defaults in
  exists formatted,
    format_defaults str_text (zip (drop required args) defaults) = inr formatted /\
    out = append_marker "**" (spec_keywords spec)
            (append_marker "*" (spec_varargs spec)
               (map s_ (take required args) ++ formatted)) /\
    length formatted = length args `min` length defaults /\
    length out = length args + has_collector (spec_varargs spec)
                 + has_collector (spec_keywords spec).
Proof.
  intros Hspec Hout args defaults required.
  unfold _arguments_from_kw in Hout. simpl in Hout. rewrite Hspec in Hout.
  fold args in Hout.
  assert (exists formatted,
            format_defaults str_text (zip (drop required args) defaults)
            = inr formatted /\
            out = append_marker "**" (spec_keywords spec)
                    (append_marker "*" (spec_varargs spec)
                       (map s_ (take required args) ++ formatted)))
    as (formatted & Hformatted & ->).
  { subst required defaults. revert Hout.
    destruct (spec_defaults spec) as [[|d defaults]|]; simpl.
    - intros [= <-]. exists []. rewrite Nat.sub_0_r, firstn_all, app_nil_r.
      split; [|done]. by destruct (drop _ _).
    - destruct (format_defaults _ _) as [f|formatted]; [discriminate|].
      intros [= <-]. by exists formatted.
    - intros [= <-]. exists []. rewrite Nat.sub_0_r, firstn_all, app_nil_r.
      split; [|done]. by destruct (drop _ _). }
  exists formatted. split; [done|]. split; [done|].
  assert (length formatted = length args `min` length defaults) as Hlength.
  { rewrite (format_defaults_length _ _ Hformatted), length_zip, length_drop.
    subst required. lia. }
  split; [done|].
  rewrite !append_marker_length, length_app, length_map, length_take, Hlength.
  subst required. lia.
Qed.

(** X22: listing the arguments of a Python function whose parameter
    names are ASCII never raises, [str] of a default value being taken
    to return; it raises [TypeError] for a routine that
    [inspect.getargspec] refuses. *)
Theorem argument_listing_succeeds kw :
  (getargspec kw = None ->
   _arguments_from_kw getargspec ismethod str_text (LibraryKeyword kw)
   = inl TypeError_not_a_function) /\
  (forall spec,
     getargspec kw = Some spec ->
     Forall (fun n => forallb is_ascii (bytes n) = true) (spec_args spec) ->
     exists out,
       _arguments_from_kw getargspec ismethod str_text (LibraryKeyword kw)
       = inr out).
Proof.
  split.
  - intros Hnone. unfold _arguments_from_kw. simpl. by rewrite Hnone.
  - intros spec Hspec Hascii. unfold _arguments_from_kw. simpl. rewrite Hspec.
    set (args := if ismethod kw then tail (spec_args spec) else spec_args spec).
    assert (Forall (fun n => forallb is_ascii (bytes n) = true) args) as Hargs.
    { subst args. destruct (ismethod kw); [|done].
      destruct Hascii; [constructor | done]. }
    assert (forall pairs,
              Forall (fun nd => forallb is_ascii (bytes nd.1) = true) pairs ->
              exists formatted, format_defaults str_text pairs = inr formatted)
      as Hformat.
    { induction 1 as [|[n d] pairs Hn _ [formatted IH]]; simpl; [by eexists|].
      assert (exists item, format_default str_text n d = inr item) as [item ->].
      { unfold format_default, decode_ascii. simpl in Hn. rewrite Hn.
        destruct d as [| | | |[s|cps]| | | | |]; by eexists. }
      rewrite IH. by eexists. }
    destruct (spec_defaults spec) as [[|d defaults]|]; [by eexists| |by eexists].
    destruct (Hformat (zip (drop (length args - length (d :: defaults)) args)
                           (d :: defaults))) as [formatted ->]; [|by eexists].
    apply Forall_forall. intros [n d'] Hin.
    apply elem_of_zip_l in Hin. simpl in *.
    assert (n ∈ args) as Hn.
    { apply list_elem_of_lookup in Hin as [i Hi].
      rewrite lookup_drop in Hi. by apply list_elem_of_lookup_2 in Hi. }
    by apply (proj1 (Forall_forall _ _) Hargs).
Qed.

End IntrospectionProperties.

(** *** Instances on the sample objects *)

Import MoreSamples.

Lemma encoder_fails_only_without_str_form_witness :
  _handle_binary_result (Unicode [1; 228]%N)
  = inl (ValueError_cannot_represent (Unicode [1; 228]%N)).
Proof.
  destruct (encoder_fails_only_without_str_form (Unicode [1; 228]%N)
              (ValueError_cannot_represent (Unicode [1; 228]%N)))
    as [[_ Hraises] _].
  apply Hraises. split; [computed|]. split; [|reflexivity].
  exists [1; 228]%N. split; [reflexivity|computed].
Defined.

Lemma plain_text_is_decoded_and_stable_witness :
  _handle_binary_result (Str "hello") = inr (u_ (u "hello")) /\
  _handle_binary_result (Unicode (u "hello")) = inr (u_ (u "hello")).
Proof.
  destruct (plain_text_is_decoded_and_stable (Str "hello") ltac:(computed))
    as (Hdecoded & _ & _ & Hstable).
  exact (conj Hdecoded Hstable).
Defined.

Lemma binary_text_keeps_its_characters_witness :
  _handle_binary_result (Unicode [12]%N) = inr (VBinary FF) /\
  _handle_binary_arg (VBinary FF) = s_ FF /\
  chars (Str FF) = chars (Unicode [12]%N) /\
  _handle_binary_result (Str FF) = inr (VBinary FF).
Proof.
  exact (binary_text_keeps_its_characters (Unicode [12]%N) FF
           ltac:(computed) ltac:(computed)).
Defined.

Lemma binary_arguments_decoded_at_top_level_witness :
  (_handle_binary_args [VBinary FF; VInt 1] ∅).1 !! 1 = Some (VInt 1).
Proof.
  destruct (binary_arguments_decoded_at_top_level [VBinary FF; VInt 1] ∅)
    as (_ & _ & _ & _ & Hkept & _).
  exact (Hkept 1 (VInt 1) eq_refl eq_refl).
Defined.

Lemma return_value_is_a_wire_value_witness :
  wire_value (VList [s_ ""; VBinary FF; VInt 3]).
Proof.
  exact (proj1 (return_value_is_a_wire_value sample_repr
                  (VTuple [VNone; s_ FF; VInt 3])
                  (VList [s_ ""; VBinary FF; VInt 3]) ltac:(computed))).
Defined.

Lemma simple_values_always_encode_witness :
  exists w,
    _handle_return_value sample_repr
      (VDict [(VNone, VList [VInt 1; VNone]); (s_ "k", s_ "v")]) = inr w /\
    wire_value w.
Proof.
  apply simple_values_always_encode.
  apply simple_dict.
  apply List.Forall_cons; [split; [by left|]|].
  - apply simple_list. repeat constructor.
  - apply List.Forall_cons; [split|apply List.Forall_nil].
    + right; right. exists (Str "k"). split; [reflexivity|computed].
    + apply simple_str.
Defined.

Lemma mapping_with_binary_key_is_refused_witness :
  exists data,
    _handle_return_value sample_repr (VDict [(s_ FF, VInt 1)])
    = inl (TypeError_unhashable (VBinary data)).
Proof.
  apply (mapping_with_binary_key_is_refused sample_repr
           [(s_ FF, VInt 1)] (s_ FF) (VInt 1) FF).
  - apply elem_of_cons. by left.
  - computed.
  - intros k v Hin. apply list_elem_of_singleton in Hin.
    injection Hin as -> ->.
    exists (VBinary FF), (VInt 1). split; computed.
Defined.


Lemma capture_stays_when_encoding_fails_witness :
  run_keyword sample_repr "garbled" [] None sample
  = (inl (ValueError_cannot_represent (Unicode [1; 228]%N)),
     _intercept_stdout sample) /\
  sys_stdout (_intercept_stdout sample) = Capture [] /\
  console (_log "late" (Some "INFO") (_intercept_stdout sample)) = [].
Proof.
  assert (exc_type (through_run_keyword garbled_exc) ∉ _fatal_exceptions)
    as Hkind by exact (bool_decide_eq_false_1 _ ltac:(computed)).
  assert (_get_error_message sample_repr
            (exc_type (through_run_keyword garbled_exc))
            (exc_value (through_run_keyword garbled_exc))
          = inl (ValueError_cannot_represent (Unicode [1; 228]%N)))
    as Hmessage by computed.
  destruct (capture_stays_when_encoding_fails sample_repr "garbled" [] None
              sample (inl (through_run_keyword garbled_exc))
              (_intercept_stdout sample)
              (ValueError_cannot_represent (Unicode [1; 228]%N))
              ltac:(computed) (conj Hkind Hmessage))
    as (Hrun & Hstdout & Hlog).
  exact (conj Hrun (conj Hstdout (Hlog "late" (Some "INFO")))).
Defined.

Lemma run_keyword_keeps_the_server_witness :
  _shutdown (run_keyword sample_repr "flag" [] None stoppable).2
  = _shutdown stoppable.
Proof.
  destruct (run_keyword_keeps_the_server sample_repr "flag" [] None stoppable)
    as (_ & _ & _ & _ & Hshutdown & _).
  apply Hshutdown. discriminate.
Defined.


Lemma listed_names_resolve_witness :
  exists name, s_ "greet" = s_ name /\ _get_keyword name sample <> None.
Proof.
  destruct (listed_names_resolve sample sample_own_names ltac:(computed))
    as (Hresolve & _ & _).
  apply Hresolve. apply list_elem_of_In. simpl. tauto.
Defined.

Lemma lister_of_the_backing_object_witness :
  get_keyword_names module_server
  = (inr (VList [s_ "ping"; s_ "stop_remote_server"]), module_server).
Proof.
  assert (getattr (_library module_server) "get_keyword_names"
          = Some (Routine (returns [] (VList [s_ "ping"])))) as Hlister
    by computed.
  exact (lister_of_the_backing_object module_server
           (returns [] (VList [s_ "ping"])) [] (inr (VList [s_ "ping"]))
           (or_introl Hlister) eq_refl).
Defined.

Lemma documentation_of_other_names_witness :
  get_keyword_documentation "version" sample = Str "" /\
  get_keyword_documentation "no_such_keyword" sample = Str "".
Proof.
  destruct (documentation_of_other_names sample "version") as (_ & Hdata & _).
  destruct (documentation_of_other_names sample "no_such_keyword")
    as (_ & Habsent & _).
  split.
  - apply Hdata; [discriminate|computed].
  - apply Habsent; [discriminate|computed].
Defined.

Lemma message_fallback_witness :
  exception_message mixed_exception
  = inl (TypeError_coercing_to_unicode (VInt 1)) /\
  _get_error_message sample_repr RuntimeError mixed_exception
  = inl (TypeError_coercing_to_unicode (VInt 1)).
Proof.
  destruct (message_fallback sample_repr mixed_exception)
    as (Hraises & _ & Hleaves).
  assert (exception_message mixed_exception
          = inl (TypeError_coercing_to_unicode (VInt 1))) as Hmessage.
  { apply Hraises. split; [reflexivity|].
    exists ["a"], (VInt 1), [VNone]. split; [reflexivity|].
    split; [|reflexivity]. intros s. discriminate. }
  exact (conj Hmessage (Hleaves _ RuntimeError Hmessage)).
Defined.

Lemma binary_message_under_a_class_name_witness :
  _get_error_message sample_repr RuntimeError (new_exception page_message)
  = inr (VBinary page_message) /\
  _get_error_message sample_repr (OtherClass "MyError")
    (new_exception page_message)
  = inr (s_ ("MyError: " +:+ page_message)).
Proof.
  destruct (binary_message_under_a_class_name sample_repr RuntimeError
              (new_exception page_message) (Unicode (u page_message))
              page_message ltac:(computed) ltac:(computed) ltac:(computed))
    as [Hgeneric _].
  destruct (binary_message_under_a_class_name sample_repr (OtherClass "MyError")
              (new_exception page_message) (Unicode (u page_message))
              page_message ltac:(computed) ltac:(computed) ltac:(computed))
    as [_ Hother].
  split.
  - exact (Hgeneric (bool_decide_eq_true_1 _ ltac:(computed))).
  - exact (proj1 (Hother (bool_decide_eq_false_1 _ ltac:(computed)))).
Defined.


Lemma serve_forever_until_stopped_witness :
  serve_forever [stop_request; stop_request] stoppable
  = (stop_remote_server stoppable).2 /\
  serve_forever [stop_request; stop_request] sample
  = serve_forever [stop_request] (stop_remote_server sample).2.
Proof.
  destruct (serve_forever_until_stopped [] [stop_request] stoppable)
    as (_ & _ & Hallowed).
  destruct (serve_forever_until_stopped [] [stop_request] sample)
    as (_ & _ & Hdenied).
  exact (conj (Hallowed eq_refl) (Hdenied eq_refl)).
Defined.

Lemma arguments_of_unknown_and_reserved_names_witness :
  get_keyword_arguments join_getargspec join_ismethod join_str
    "no_such_keyword" sample = inr [].
Proof.
  destruct (arguments_of_unknown_and_reserved_names join_getargspec
              join_ismethod join_str "no_such_keyword" sample) as [Hnone _].
  apply Hnone. computed.
Defined.

Lemma argument_list_shape_witness :
  exists formatted,
    format_defaults join_str [("times", VInt 1); ("sep", s_ ", ")]
    = inr formatted /\
    [s_ "name"; s_ "times=1"; s_ "sep=, "; s_ "*rest"]
    = append_marker "**" None
        (append_marker "*" (Some "rest") ([s_ "name"] ++ formatted)) /\
    length formatted = 2 /\
    length [s_ "name"; s_ "times=1"; s_ "sep=, "; s_ "*rest"] = 4.
Proof.
  exact (argument_list_shape join_getargspec join_ismethod join_str flag
           join_spec [s_ "name"; s_ "times=1"; s_ "sep=, "; s_ "*rest"]
           eq_refl ltac:(computed)).
Defined.

Lemma argument_listing_succeeds_witness :
  exists out,
    _arguments_from_kw join_getargspec join_ismethod join_str
      (LibraryKeyword flag) = inr out.
Proof.
  destruct (argument_listing_succeeds join_getargspec join_ismethod join_str
              flag) as [_ Hlisted].
  apply (Hlisted join_spec eq_refl). repeat constructor.
Defined.
